(** * ABCNN-1: the block's forward pass and the training loop

    A shallow embedding of [src/model/blocks/abcnn1.py] (the class
    [ABCNN1Block]) and of [train.py] (the functions [process_batches] and
    [train]), with the properties the specification states about them.

    Conventions of the embedding.
    - Python floats are modelled by exact rationals ([Qc], rationals in
      lowest terms, so that equality is plain equality).  Comparisons and
      the ratios of counts computed by the metric functions are exact;
      rounding is below the level of this model, and so is [nan].
    - Calls into torch, sklearn, tqdm and [utils] are calls to parameters
      of the enclosing section (or to the model of the library function in
      [Module sklearn]); they are assumed to return, and the argument
      validation of the libraries is not modelled, with one exception: the
      [DataLoader] constructor with [shuffle=True] raises [ValueError] on
      a dataset of length 0.  The order in which a loader yields the
      samples is a parameter.  The calls whose effect
      lies outside the program (console output, checkpoint files, plots,
      autograd and optimizer calls) are recorded, in order, in a trace of
      events.
    - Python objects that are mutated in place (the model, the optimizer,
      the list objects held by the history dictionary) live in an explicit
      store, and the history dictionary maps its keys to references. *)

From Corelib Require Import PrimFloat.
From Stdlib Require Import QArith Qcanon.
From stdpp Require Import base tactics option list numbers strings pretty functions gmap.

Local Open Scope Z_scope.

(** ** Rationals standing for Python floats *)

Definition Qc_of_nat (n : nat) : Qc := Q2Qc (inject_Z (Z.of_nat n)).

(** [a / b] on two counts.  Division by zero yields [0] in [Qc], which is
    the value sklearn substitutes for an undefined ratio. *)
Definition ratio (a b : nat) : Qc := (Qc_of_nat a / Qc_of_nat b)%Qc.

Definition Qc_sum (l : list Qc) : Qc := foldr Qcplus 0%Qc l.

Definition mean (l : list Qc) : Qc := (Qc_sum l / Qc_of_nat (length l))%Qc.

(** Python's [x > y] on floats. *)
Definition py_gt (x y : Qc) : bool := bool_decide (y < x)%Qc.

(** The two operations of [train.py] on floats, on binary64 itself; they
    serve to check the numeric examples of the specification. *)
Module Binary64.

(** [x / n] for a float [x] and a non-zero integer [n], given as the
    float that Python converts it to. *)
Definition truediv (x n : float) : float := PrimFloat.div x n.

(** [x > y]. *)
Definition gt (x y : float) : bool := PrimFloat.ltb y x.

(** Lines 125-127 over a list of scores: the positions, counted from
    [epoch], at which the score exceeds the best so far. *)
Fixpoint best_epochs (best : float) (epoch : Z) (scores : list float) : list Z :=
  match scores with
  | [] => []
  | f :: scores =>
      if gt f best then epoch :: best_epochs f (epoch + 1) scores
      else best_epochs best (epoch + 1) scores
  end.

End Binary64.

(** [l] cut into consecutive pieces of [n] entries (the last may be
    shorter); [fuel] bounds the number of pieces. *)
Fixpoint chunks {A} (fuel n : nat) (l : list A) : list (list A) :=
  match fuel with
  | O => []
  | S fuel =>
      match l with
      | [] => []
      | _ => take n l :: chunks fuel n (drop n l)
      end
  end.

(** * The ABCNN-1 block ([src/model/blocks/abcnn1.py]) *)

Module ABCNN1.

(** What [forward] returns: the tuple [(w1, w2, a1, a2)]. *)
Record outputs (Tensor : Type) := Outputs {
  w1 : Tensor;
  w2 : Tensor;
  a1 : Tensor;
  a2 : Tensor;
}.
Arguments Outputs {Tensor} _ _ _ _.
Arguments w1 {Tensor} _.
Arguments w2 {Tensor} _.
Arguments a1 {Tensor} _.
Arguments a2 {Tensor} _.

Section Block.
(** Tensors, and the state of the random generator that [nn.Dropout2d]
    draws its masks from. *)
Context {Tensor Gen : Type}.

(** The sub-modules held by the block.  [attn], [conv] and [pool] are the
    constructor's arguments; [ap] is [AllAP()] and [dropout] is
    [nn.Dropout2d(p=dropout_rate)].  A module that rejects its input
    raises, which is [None] here; drawing a dropout mask always succeeds
    and advances the generator. *)
Variable attn : Tensor → Tensor → option (Tensor * Tensor).
Variable conv : Tensor → option Tensor.
Variable pool : Tensor → option Tensor.
Variable ap : Tensor → option Tensor.
Variable dropout : Gen → Tensor → Tensor * Gen.

(** [ABCNN1Block.forward], lines 47-52. *)
Definition forward (g : Gen) (x1 x2 : Tensor) : option (outputs Tensor * Gen) :=
  '(o1, o2) ← attn x1 x2;
  c1 ← conv o1;
  c2 ← conv o2;
  w1 ← pool c1;
  w2 ← pool c2;
  let '(w1, g) := dropout g w1 in
  let '(w2, g) := dropout g w2 in
  a1 ← ap c1;
  a2 ← ap c2;
  Some (Outputs w1 w2 a1 a2, g).

(** The two sentence vectors [(a1, a2)] of a run, when it returns. *)
Definition sentence_vectors (r : option (outputs Tensor * Gen)) : option (Tensor * Tensor) :=
  (λ og, (a1 og.1, a2 og.1)) <$> r.

(** The two pooled sequences [(w1, w2)] of a run, when it returns. *)
Definition pooled_sequences (r : option (outputs Tensor * Gen)) : option (Tensor * Tensor) :=
  (λ og, (w1 og.1, w2 og.1)) <$> r.

(** The convolution outputs [(c1, c2)] of lines 47-48. *)
Definition conv_outputs (x1 x2 : Tensor) : option (Tensor * Tensor) :=
  '(o1, o2) ← attn x1 x2;
  c1 ← conv o1;
  c2 ← conv o2;
  Some (c1, c2).

End Block.

(** ** A small concrete block

    Tensors as torch stores them, a shape and a flat row-major storage,
    with sub-modules simple enough to run: an attention that stacks the
    other sentence as second channel, a wide convolution of width 2 that
    sums the channels, width-2 and global average pooling, and a
    [Dropout2d] with [p = 0.5] that reads one mask bit per channel. *)
Module Toy.

Record tensor := Tensor { dims : list nat; storage : list Qc }.

(** The storage cut into consecutive blocks of [n] entries. *)
Definition blocks (n : nat) (l : list Qc) : list (list Qc) := chunks (length l) n l.

Definition vadd (u v : list Qc) : list Qc := zip_with Qcplus u v.
Definition vscale (k : Qc) (u : list Qc) : list Qc := Qcmult k <$> u.
Definition vzero (n : nat) : list Qc := replicate n 0%Qc.
Definition vsum (n : nat) (us : list (list Qc)) : list Qc := foldr vadd (vzero n) us.

Definition attn (x1 x2 : tensor) : option (tensor * tensor) :=
  match dims x1, dims x2 with
  | [b; 1%nat; l; c], [b'; 1%nat; l'; c'] =>
      if bool_decide (b = b' ∧ l = l' ∧ c = c') then
        let s1 := blocks (l * c) (storage x1) in
        let s2 := blocks (l * c) (storage x2) in
        Some (Tensor [b; 2%nat; l; c] (concat (zip_with app s1 s2)),
              Tensor [b; 2%nat; l; c] (concat (zip_with app s2 s1)))
      else None
  | _, _ => None
  end.

Definition conv_sample (l c : nat) (sample : list Qc) : list Qc :=
  let rows := blocks c (vsum (l * c) (blocks (l * c) sample)) in
  concat (zip_with vadd (vzero c :: rows) (rows ++ [vzero c])).

Definition conv (o : tensor) : option tensor :=
  match dims o with
  | [b; ch; l; c] =>
      Some (Tensor [b; 1%nat; (l + 2 - 1)%nat; c]
              (concat (conv_sample l c <$> blocks (ch * l * c) (storage o))))
  | _ => None
  end.

Definition pool_sample (c : nat) (sample : list Qc) : list Qc :=
  let rows := blocks c sample in
  concat (zip_with (λ u v, vscale (1 / 2)%Qc (vadd u v)) rows (tail rows)).

Definition pool (t : tensor) : option tensor :=
  match dims t with
  | [b; 1%nat; l; c] =>
      Some (Tensor [b; 1%nat; (l - 1)%nat; c]
              (concat (pool_sample c <$> blocks (l * c) (storage t))))
  | _ => None
  end.

Definition ap_sample (l c : nat) (sample : list Qc) : list Qc :=
  vscale (/ Qc_of_nat l)%Qc (vsum c (blocks c sample)).

Definition ap (t : tensor) : option tensor :=
  match dims t with
  | [b; 1%nat; l; c] =>
      Some (Tensor [b; c] (concat (ap_sample l c <$> blocks (l * c) (storage t))))
  | _ => None
  end.

(** The generator is the stream of mask bits still to be drawn; [true]
    drops a channel, [false] keeps it, scaled by [1 / (1 - p) = 2]. *)
Definition dropout (g : list bool) (t : tensor) : tensor * list bool :=
  match dims t with
  | [b; ch; l; c] =>
      let chans := blocks (l * c) (storage t) in
      (Tensor (dims t)
         (concat (imap (λ i u, if default false (g !! i) then vzero (length u)
                               else vscale 2%Qc u) chans)),
       drop (b * ch) g)
  | _ => (t, g)
  end.

Definition forward : list bool → tensor → tensor → option (outputs tensor * list bool) :=
  ABCNN1.forward attn conv pool ap dropout.

(** One sentence pair of two positions and two features. *)
Definition x1 : tensor := Tensor [1; 1; 2; 2]%nat (Qc_of_nat <$> [1; 2; 3; 4]%nat).
Definition x2 : tensor := Tensor [1; 1; 2; 2]%nat (Qc_of_nat <$> [5; 6; 7; 8]%nat).

End Toy.

End ABCNN1.

(** * The metric functions of [sklearn.metrics] used by [train.py]

    Labels are Python integers.  Each function pairs the true and the
    predicted labels position by position.  Macro averaging is the
    unweighted mean of the per-label scores over the labels that occur in
    [y_true] or [y_pred]; a score whose denominator is zero counts as 0. *)

Module sklearn.

(** The number of samples with true label [t] and predicted label [p]. *)
Definition count_pairs (t p : Z) (y_true y_pred : list Z) : nat :=
  length (filter (λ tp, tp.1 = t ∧ tp.2 = p) (zip y_true y_pred)).

(** The number of entries of [y] equal to [l]. *)
Definition count_label (l : Z) (y : list Z) : nat := length (filter (λ x, x = l) y).

Definition unique_labels (y_true y_pred : list Z) : list Z := remove_dups (y_true ++ y_pred).

Definition accuracy_score (y_true y_pred : list Z) : Qc :=
  ratio (length (filter (λ tp, tp.1 = tp.2) (zip y_true y_pred))) (length y_true).

Definition precision_of (l : Z) (y_true y_pred : list Z) : Qc :=
  ratio (count_pairs l l y_true y_pred) (count_label l y_pred).

Definition recall_of (l : Z) (y_true y_pred : list Z) : Qc :=
  ratio (count_pairs l l y_true y_pred) (count_label l y_true).

Definition f1_of (l : Z) (y_true y_pred : list Z) : Qc :=
  ratio (2 * count_pairs l l y_true y_pred) (count_label l y_pred + count_label l y_true).

(** [average="macro"]. *)
Definition macro (score : Z → list Z → list Z → Qc) (y_true y_pred : list Z) : Qc :=
  mean ((λ l, score l y_true y_pred) <$> unique_labels y_true y_pred).

Definition precision_score : list Z → list Z → Qc := macro precision_of.
Definition recall_score : list Z → list Z → Qc := macro recall_of.
Definition f1_score : list Z → list Z → Qc := macro f1_of.

(** [confusion_matrix(y_true, y_pred, labels=labels)]: entry [i, j] counts
    the samples whose true label is [labels[i]] and whose predicted label
    is [labels[j]]. *)
Definition confusion_matrix (y_true y_pred labels : list Z) : list (list nat) :=
  (λ t, (λ p, count_pairs t p y_true y_pred) <$> labels) <$> labels.

End sklearn.

(** * [os.path.join] and [str.format] as [train.py] uses them *)

(** [os.path.join(a, b)] on POSIX. *)
Definition os_path_join (a b : string) : string :=
  if String.prefix "/" b then b
  else if bool_decide (a = "") || String.prefix "/" (String.rev a) then a +:+ b
  else a +:+ "/" +:+ b.

(** ["{}".format(n)] for an integer [n]: its decimal numeral. *)
Definition str_of_int (n : Z) : string := pretty n.

(** * [train.py] *)

(** The exceptions the modelled code can raise. *)
Inductive exn :=
| ZeroDivisionError
| KeyError (key : string)
| AttributeError
| ValueError.

Inductive res (A : Type) :=
| Ok (a : A)
| Raise (e : exn).
Arguments Ok {A} _.
Arguments Raise {A} _.

(** The [results] dictionary built at lines 252-258, in insertion order. *)
Record results := Results {
  loss : Qc;
  accuracy : Qc;
  precision : Qc;
  recall : Qc;
  f1 : Qc;
}.

(** [results.items()]. *)
Definition items (r : results) : list (string * Qc) :=
  [("loss", loss r); ("accuracy", accuracy r); ("precision", precision r);
   ("recall", recall r); ("f1", f1 r)].

(** The [config] dictionary: an absent key is [None]. *)
Record config := Config {
  batch_size : option nat;
  start_epoch : option Z;
  num_epochs : option Z;
  log_every : option Z;
  num_workers : option nat;
  checkpoint_dir : option string;
}.

(** The two reports an epoch writes: after the training pass (line 80) and
    after the validation pass (line 101). *)
Inductive phase := Training | Validation.

(** References to list objects. *)
Abbreviation loc := nat (only parsing).

Section Train.
(** The model object's state (parameters and their gradients), the
    optimizer object's state, a batch of features, the scores of a batch,
    a loss tensor, and datasets. *)
Context {Model Optimizer Features Scores Loss Dataset : Type}.

(** [model(features)]; [torch.argmax(scores, dim=1)] as a list; the loss
    function; [torch.sum]; [float(...)] of a scalar tensor. *)
Variable apply_model : Model → Features → Scores.
Variable argmax : Scores → list Z.
Variable loss_fn : Scores → list Z → Loss.
Variable torch_sum : Loss → Loss.
Variable float_of : Loss → Qc.

(** [optimizer.zero_grad()], [batch_loss.backward()], [optimizer.step()]
    as transformers of the objects they write. *)
Variable zero_grad : Optimizer → Model → Model.
Variable backward : Loss → Model → Model.
Variable step : Optimizer → Model → Model * Optimizer.

(** [len(dataset)], and the batches [(features, targets)] of a dataset
    with samples, drawn in a shuffled order and collated, with the targets
    as a list of labels. *)
Variable len : Dataset → nat.
Variable shuffled : Dataset → nat → nat → list (Features * list Z).

(** The batches that iterating
    [DataLoader(dataset, batch_size=batch_size, shuffle=True,
    num_workers=num_workers)] yields: a dataset of length 0 has none. *)
Definition DataLoader (dataset : Dataset) (batch_size num_workers : nat) :
    list (Features * list Z) :=
  if bool_decide (len dataset = 0%nat) then []
  else shuffled dataset batch_size num_workers.

(** What leaves the program: autograd and optimizer calls, console
    output, checkpoint files and plots. *)
Inductive event :=
| EvZeroGrad
| EvBackward (batch_loss : Loss)
| EvStep
| EvReport (p : phase) (cm : list (list nat)) (accuracy precision recall f1 : Qc)
| EvTqdmWrite (s : string)
| EvPrint (s : string)
| EvSaveCheckpoint (model : Model) (optimizer : option Optimizer)
    (history : gmap string (list Qc)) (epoch : Z) (filepath : string)
| EvGeneratePlots (history : gmap string (list Qc)) (checkpoint_dir : string).

(** The objects the functions read and write: the model, the optimizer
    ([None] is Python's [None]) and the list objects. *)
Record world := World {
  w_model : Model;
  w_optimizer : option Optimizer;
  w_heap : loc → list Qc;
}.

(** Computations that read and write the world, emit events and may
    raise.  What was written and emitted before an exception stays. *)
Definition M (A : Type) : Type := world → res A * world * list event.

Definition ret {A} (a : A) : M A := λ w, (Ok a, w, []).
Definition raise {A} (e : exn) : M A := λ w, (Raise e, w, []).
Definition bind {A B} (m : M A) (k : A → M B) : M B :=
  λ w, match m w with
       | (Ok a, w, t) => let '(r, w, t') := k a w in (r, w, t ++ t')
       | (Raise e, w, t) => (Raise e, w, t)
       end.

#[global] Instance M_ret : MRet M := @ret.
#[global] Instance M_bind : MBind M := λ A B k m, bind m k.

(** The result, the final world and the events of a run. *)
Definition result_of {A} (x : res A * world * list event) : res A := x.1.1.
Definition world_of {A} (x : res A * world * list event) : world := x.1.2.
Definition events_of {A} (x : res A * world * list event) : list event := x.2.

Definition get_model : M Model := λ w, (Ok (w_model w), w, []).

Definition emit (e : event) : M unit := λ w, (Ok tt, w, [e]).

Definition optimizer_zero_grad : M unit :=
  λ w, match w_optimizer w with
       | None => (Raise AttributeError, w, [])
       | Some o => (Ok tt, World (zero_grad o (w_model w)) (Some o) (w_heap w), [EvZeroGrad])
       end.

Definition loss_backward (batch_loss : Loss) : M unit :=
  λ w, (Ok tt, World (backward batch_loss (w_model w)) (w_optimizer w) (w_heap w),
        [EvBackward batch_loss]).

Definition optimizer_step : M unit :=
  λ w, match w_optimizer w with
       | None => (Raise AttributeError, w, [])
       | Some o =>
           let '(m, o) := step o (w_model w) in
           (Ok tt, World m (Some o) (w_heap w), [EvStep])
       end.

(** Python's [x / n] for a float [x] and an integer [n]. *)
Definition py_div (x : Qc) (n : nat) : M Qc :=
  if bool_decide (n = 0%nat) then raise ZeroDivisionError
  else ret (x / Qc_of_nat n)%Qc.

(** ** [process_batches] *)

(** The constructor call of lines 212-214.  With [shuffle=True] the loader
    builds a [RandomSampler] over the dataset, and that constructor raises
    [ValueError] for a dataset of length 0.  Otherwise the call returns
    the loader, which is here the batches it yields. *)
Definition new_DataLoader (dataset : Dataset) (batch_size num_workers : nat) :
    M (list (Features * list Z)) :=
  if bool_decide (len dataset = 0%nat) then raise ValueError
  else ret (DataLoader dataset batch_size num_workers).

(** The tuple [process_batches] returns: three components when training,
    two otherwise. *)
Inductive pb_return :=
| Ret3 (model : Model) (results : results) (cm : list (list nat))
| Ret2 (results : results) (cm : list (list nat)).

(** The loop of lines 215-239 over the batches still to come, with the
    loop's variables [total_loss], [actual], [predicted].  Lines 218-221
    move the batch to the GPU and change no value; the progress bar of
    [tqdm] is not modelled. *)
Fixpoint batch_loop (is_training : bool) (batches : list (Features * list Z))
    (total_loss : Qc) (actual predicted : list Z) : M (Qc * list Z * list Z) :=
  match batches with
  | [] => ret (total_loss, actual, predicted)
  | (features, targets) :: batches =>
      model ← get_model;
      let scores := apply_model model features in
      let predictions := argmax scores in
      let actual := actual ++ targets in
      let predicted := predicted ++ predictions in
      let batch_loss := torch_sum (loss_fn scores targets) in
      let total_loss := (total_loss + float_of batch_loss)%Qc in
      (if is_training then
         optimizer_zero_grad;;
         loss_backward batch_loss;;
         optimizer_step
       else ret tt);;
      batch_loop is_training batches total_loss actual predicted
  end.

(** [process_batches(model, dataset, loss_fn, batch_size, num_workers,
    desc, optimizer, is_training)].  The model and the optimizer are the
    objects of the world; [desc] only labels the progress bar. *)
Definition process_batches (dataset : Dataset) (batch_size num_workers : nat)
    (is_training : bool) : M pb_return :=
  dataloader ← new_DataLoader dataset batch_size num_workers;
  '(total_loss, actual, predicted) ← batch_loop is_training dataloader 0%Qc [] [];
  loss ← py_div total_loss (len dataset);
  let accuracy := sklearn.accuracy_score actual predicted in
  let precision := sklearn.precision_score actual predicted in
  let recall := sklearn.recall_score actual predicted in
  let f1 := sklearn.f1_score actual predicted in
  let cm := sklearn.confusion_matrix actual predicted [0; 1] in
  let results := Results loss accuracy precision recall f1 in
  if is_training then
    model ← get_model;
    ret (Ret3 model results cm)
  else ret (Ret2 results cm).

(** ** A pass written as functions of its batches

    The quantities below describe a pass over given batches without the
    loop: the batch loss under a model, the update of lines 237-239, the
    models in which the successive batches are processed, and from them
    the accumulated labels and the batch losses. *)

(** [batch_loss], line 232, for the batch [b] under the model [m]. *)
Definition batch_loss_of (m : Model) (b : Features * list Z) : Loss :=
  torch_sum (loss_fn (apply_model m b.1) b.2).

(** Lines 237-239 for the batch [b]. *)
Definition sgd_update (b : Features * list Z) (m : Model) (o : Optimizer) : Model * Optimizer :=
  step o (backward (batch_loss_of m b) (zero_grad o m)).

(** The model as it is when each batch of a training pass is processed. *)
Fixpoint training_models (o : Optimizer) (m : Model) (batches : list (Features * list Z)) :
    list Model :=
  match batches with
  | [] => []
  | b :: batches => m :: training_models (sgd_update b m o).2 (sgd_update b m o).1 batches
  end.

(** The model and the optimizer at the end of a training pass. *)
Fixpoint training_end (o : Optimizer) (m : Model) (batches : list (Features * list Z)) :
    Model * Optimizer :=
  match batches with
  | [] => (m, o)
  | b :: batches => training_end (sgd_update b m o).2 (sgd_update b m o).1 batches
  end.

(** The model as it is when each batch of a pass started in the world [w]
    is processed. *)
Definition pass_models (is_training : bool) (w : world) (batches : list (Features * list Z)) :
    list Model :=
  if is_training then
    match w_optimizer w with
    | Some o => training_models o (w_model w) batches
    | None => []
    end
  else replicate (length batches) (w_model w).

(** The world at the end of a pass started in the world [w], and the
    events of the pass. *)
Definition pass_world (is_training : bool) (w : world) (batches : list (Features * list Z)) :
    world :=
  if is_training then
    match w_optimizer w with
    | Some o =>
        World (training_end o (w_model w) batches).1
          (Some (training_end o (w_model w) batches).2) (w_heap w)
    | None => w
    end
  else w.

(** All true labels, all predicted labels and the batch losses of a pass
    whose batches are processed in the models [ms]. *)
Definition targets_of (batches : list (Features * list Z)) : list Z :=
  concat (snd <$> batches).

Definition predictions_of (ms : list Model) (batches : list (Features * list Z)) : list Z :=
  concat (zip_with (λ m b, argmax (apply_model m b.1)) ms batches).

Definition batch_losses (ms : list Model) (batches : list (Features * list Z)) : list Qc :=
  zip_with (λ m b, float_of (batch_loss_of m b)) ms batches.

(** The autograd and optimizer calls of a training pass. *)
Definition training_events (ms : list Model) (batches : list (Features * list Z)) : list event :=
  concat (zip_with (λ m b, [EvZeroGrad; EvBackward (batch_loss_of m b); EvStep]) ms batches).

Definition pass_events (is_training : bool) (w : world) (batches : list (Features * list Z)) :
    list event :=
  if is_training then training_events (pass_models true w batches) batches else [].

(** The second and third component of either tuple. *)
Definition results_of (r : pb_return) : results :=
  match r with
  | Ret3 _ results _ => results
  | Ret2 results _ => results
  end.

Definition cm_of (r : pb_return) : list (list nat) :=
  match r with
  | Ret3 _ _ cm => cm
  | Ret2 _ cm => cm
  end.

(** ** [evaluate] *)

(** What [evaluate] writes: the events of its pass, then its report
    (line 148), which gives the confusion matrix and four metrics. *)
Inductive evaluate_event :=
| EvPass (e : event)
| EvPrintReport (cm : list (list nat)) (accuracy precision recall f1 : Qc).

(** [evaluate(model, dataset, loss_fn, batch_size=64, num_workers=4,
    desc="eval")], lines 142-164; an argument left out is [None].  The
    call of line 146 passes no optimizer and leaves [is_training] at its
    default: within the pass the optimizer is [None], and the optimizer
    object of the caller is out of its reach. *)
Definition evaluate (dataset : Dataset) (batch_size num_workers : option nat) (w : world) :
    res (results * list (list nat)) * world * list evaluate_event :=
  let '(r, w', t) :=
    process_batches dataset (default 64%nat batch_size) (default 4%nat num_workers) false
      (World (w_model w) None (w_heap w)) in
  let w' := World (w_model w') (w_optimizer w) (w_heap w') in
  match r with
  | Raise e => (Raise e, w', EvPass <$> t)
  | Ok (Ret3 _ _ _) => (Raise ValueError, w', EvPass <$> t)
  | Ok (Ret2 results cm) =>
      (Ok (results, cm), w',
       (EvPass <$> t) ++
       [EvPrintReport cm (accuracy results) (precision results) (recall results)
          (f1 results)])
  end.

(** ** [train] *)

(** The history dictionary as the store shows it: each key with the
    content of its list. *)
Definition snapshot (history : gmap string loc) (heap : loc → list Qc) : gmap string (list Qc) :=
  heap <$> history.

(** [history[key].append(val)]. *)
Definition history_append (history : gmap string loc) (key : string) (val : Qc) : M unit :=
  λ w, match history !! key with
       | None => (Raise (KeyError key), w, [])
       | Some l =>
           (Ok tt, World (w_model w) (w_optimizer w)
                     (<[l := w_heap w l ++ [val]]> (w_heap w)), [])
       end.

(** [for name, val in items: history[prefix + name].append(val)]. *)
Fixpoint update_history (history : gmap string loc) (prefix : string)
    (items : list (string * Qc)) : M unit :=
  match items with
  | [] => ret tt
  | (name, val) :: items =>
      history_append history (prefix +:+ name) val;;
      update_history history prefix items
  end.

(** [save_checkpoint(model, optimizer, history, epoch, filepath)]. *)
Definition save_checkpoint (history : gmap string loc) (epoch : Z) (filepath : string) : M unit :=
  λ w, emit (EvSaveCheckpoint (w_model w) (w_optimizer w)
               (snapshot history (w_heap w)) epoch filepath) w.

(** [generate_plots(history, checkpoint_dir)]. *)
Definition generate_plots (history : gmap string loc) (checkpoint_dir : string) : M unit :=
  λ w, emit (EvGeneratePlots (snapshot history (w_heap w)) checkpoint_dir) w.

Definition report (p : phase) (r : results) (cm : list (list nat)) : M unit :=
  emit (EvReport p cm (accuracy r) (precision r) (recall r) (f1 r)).

(** The body of the loop of line 74 for one [epoch], lines 76-137; it
    returns the new value of [best_val_f1].  The model that line 77 binds
    again is the model object of the world.  A tuple of the wrong length
    fails to unpack, with [ValueError]. *)
Definition train_epoch (history : gmap string loc) (trainset valset : Dataset)
    (batch_size num_workers : nat) (log_every : Z) (checkpoint_dir : string)
    (epoch : Z) (best_val_f1 : Qc) : M Qc :=
  r ← process_batches trainset batch_size num_workers true;
  match r with
  | Ret2 _ _ => raise ValueError
  | Ret3 _ train_results train_cm =>
      report Training train_results train_cm;;
      r ← process_batches valset batch_size num_workers false;
      match r with
      | Ret3 _ _ _ => raise ValueError
      | Ret2 val_results val_cm =>
          report Validation val_results val_cm;;
          update_history history "train_" (items train_results);;
          update_history history "val_" (items val_results);;
          best_val_f1 ←
            (if py_gt (f1 val_results) best_val_f1 then
               emit (EvTqdmWrite "New best checkpoint!");;
               save_checkpoint history epoch
                 (os_path_join checkpoint_dir "best_checkpoint");;
               ret (f1 val_results)
             else ret best_val_f1);
          (if bool_decide (log_every ≠ 0) then
             if bool_decide (epoch `mod` log_every = 0) then
               emit (EvPrint "saving checkpoint...");;
               save_checkpoint history epoch
                 (os_path_join checkpoint_dir ("checkpoint_epoch_" +:+ str_of_int epoch));;
               generate_plots history checkpoint_dir
             else ret tt
           else ret tt);;
          ret best_val_f1
      end
  end.

(** The loop of line 74 over the epochs still to come. *)
Fixpoint epoch_loop (history : gmap string loc) (trainset valset : Dataset)
    (batch_size num_workers : nat) (log_every : Z) (checkpoint_dir : string)
    (epochs : list Z) (best_val_f1 : Qc) : M Qc :=
  match epochs with
  | [] => ret best_val_f1
  | epoch :: epochs =>
      best_val_f1 ← train_epoch history trainset valset batch_size num_workers
                       log_every checkpoint_dir epoch best_val_f1;
      epoch_loop history trainset valset batch_size num_workers log_every
        checkpoint_dir epochs best_val_f1
  end.

(** [range(start, stop)]. *)
Definition range (start stop : Z) : list Z := seqZ start (stop - start).

(** [train(model, loss_fn, optimizer, history, trainset, valset, config)]. *)
Definition train (history : gmap string loc) (trainset valset : Dataset)
    (config : config) : M Model :=
  let batch_size := default 20%nat (batch_size config) in
  let start_epoch := default 1 (start_epoch config) in
  let num_epochs := default 20 (num_epochs config) in
  let log_every := default 5 (log_every config) in
  let num_workers := default 4%nat (num_workers config) in
  let checkpoint_dir := default "checkpoints" (checkpoint_dir config) in
  let best_val_f1 := 0%Qc in
  epoch_loop history trainset valset batch_size num_workers log_every checkpoint_dir
    (range start_epoch (num_epochs + 1)) best_val_f1;;
  get_model.

(** ** Reading a trace *)

(** The checkpoints saved, as pairs of epoch and file path; the
    validation F1 scores reported; the directories plotted into. *)
Definition saves (tr : list event) : list (Z * string) :=
  omap (λ e, match e with
             | EvSaveCheckpoint _ _ _ epoch filepath => Some (epoch, filepath)
             | _ => None
             end) tr.

Definition validation_f1s (tr : list event) : list Qc :=
  omap (λ e, match e with
             | EvReport Validation _ _ _ _ f1 => Some f1
             | _ => None
             end) tr.

Definition plots (tr : list event) : list string :=
  omap (λ e, match e with
             | EvGeneratePlots _ checkpoint_dir => Some checkpoint_dir
             | _ => None
             end) tr.

(** What a call of [save_checkpoint] is given. *)
Record checkpoint := Checkpoint {
  ck_model : Model;
  ck_optimizer : option Optimizer;
  ck_history : gmap string (list Qc);
  ck_epoch : Z;
  ck_filepath : string;
}.

(** The checkpoints saved, in full. *)
Definition checkpoints (tr : list event) : list checkpoint :=
  omap (λ e, match e with
             | EvSaveCheckpoint m o h epoch filepath => Some (Checkpoint m o h epoch filepath)
             | _ => None
             end) tr.

(** The epochs at which the best checkpoint was saved, and the saves of
    per-epoch checkpoints. *)
Definition best_saves (checkpoint_dir : string) (tr : list event) : list Z :=
  (filter (λ s, s.2 = os_path_join checkpoint_dir "best_checkpoint") (saves tr)).*1.

Definition epoch_saves (checkpoint_dir : string) (tr : list event) : list (Z * string) :=
  filter (λ s, s.2 ≠ os_path_join checkpoint_dir "best_checkpoint") (saves tr).

(** The events of lines 126-129 and of lines 133-137 in the world [w]. *)
Definition best_events (history : gmap string loc) (checkpoint_dir : string) (epoch : Z)
    (w : world) : list event :=
  [EvTqdmWrite "New best checkpoint!";
   EvSaveCheckpoint (w_model w) (w_optimizer w) (snapshot history (w_heap w)) epoch
     (os_path_join checkpoint_dir "best_checkpoint")].

Definition periodic_events (history : gmap string loc) (checkpoint_dir : string) (epoch : Z)
    (w : world) : list event :=
  [EvPrint "saving checkpoint...";
   EvSaveCheckpoint (w_model w) (w_optimizer w) (snapshot history (w_heap w)) epoch
     (os_path_join checkpoint_dir ("checkpoint_epoch_" +:+ str_of_int epoch));
   EvGeneratePlots (snapshot history (w_heap w)) checkpoint_dir].

End Train.

Arguments update_history : simpl never.

(** The condition of line 132. *)
Definition is_log_epoch (log_every epoch : Z) : bool :=
  bool_decide (log_every ≠ 0) && bool_decide (epoch `mod` log_every = 0).

(** The epochs, each given with its validation F1, at which the score
    exceeds [best] and every score before it. *)
Fixpoint record_epochs (best : Qc) (scores : list (Z * Qc)) : list Z :=
  match scores with
  | [] => []
  | (epoch, f) :: scores =>
      if py_gt f best then epoch :: record_epochs f scores
      else record_epochs best scores
  end.

(** The parts of a configuration that [train] reads, with its defaults. *)
Definition epochs_of (config : config) : list Z :=
  seqZ (default 1 (start_epoch config))
    (default 20 (num_epochs config) + 1 - default 1 (start_epoch config)).
Definition log_every_of (config : config) : Z := default 5 (log_every config).
Definition checkpoint_dir_of (config : config) : string :=
  default "checkpoints" (checkpoint_dir config).



(** The values that the loop [update_history history prefix items]
    appends to the list object [l], in order. *)
Definition appended_to (history : gmap string loc) (prefix : string)
    (items : list (string * Qc)) (l : loc) : list Qc :=
  (filter (λ nv, history !! (prefix +:+ nv.1) = Some l) items).*2.

(** The first of [keys], in order, that the history does not have. *)
Definition first_missing (history : gmap string loc) (keys : list string) : option string :=
  snd <$> list_find (λ k, history !! k = None) keys.

(** The ten keys [train] appends to. *)
Definition history_keys : list string :=
  (String.append "train_" <$> (items (Results 0 0 0 0 0)).*1) ++
  (String.append "val_" <$> (items (Results 0 0 0 0 0)).*1).

(** ** A small instance to run [train] on

    Examples are pairs of an identifier and a label and a dataset is the
    list of its examples.  The model object is the number of optimizer
    steps taken so far; its prediction for an example depends on that
    number, so that the validation F1 changes from epoch to epoch. *)
Module TrainToy.

(** After [m] optimizer steps: how many of the five label-0 examples and
    of the fifteen label-1 examples of the validation set are predicted
    correctly. *)
Definition hits (m : nat) : nat * nat :=
  match m with
  | 1 => (3, 3)
  | 2 => (5, 5)
  | 3 => (4, 4)
  | 4 => (2, 12)
  | _ => (0, 0)
  end%nat.

(** The label predicted for the example [id].  Examples 0-4 carry label 0,
    examples 5-19 label 1; any other example is predicted 0. *)
Definition predict (m id : nat) : Z :=
  if (id <? 5)%nat then (if (id <? (hits m).1)%nat then 0 else 1)
  else if (id <? 20)%nat then (if (id - 5 <? (hits m).2)%nat then 1 else 0)
  else 0.

Definition apply_model (m : nat) (features : list nat) : list Z := predict m <$> features.
Definition argmax (scores : list Z) : list Z := scores.

(** A loss of 2.5 for a wrong prediction and of 0 for a right one. *)
Definition loss_fn (scores targets : list Z) : list Qc :=
  zip_with (λ s t, if bool_decide (s = t) then 0%Qc else Q2Qc (5 # 2)) scores targets.
Definition torch_sum (l : list Qc) : list Qc := [Qc_sum l].
Definition float_of (l : list Qc) : Qc := Qc_sum l.

Definition zero_grad (o : unit) (m : nat) : nat := m.
Definition backward (l : list Qc) (m : nat) : nat := m.
Definition step (o : unit) (m : nat) : nat * unit := (S m, o).

Definition len (dataset : list (nat * Z)) : nat := length dataset.

(** Batches in the order of the dataset (one of the orders a shuffle can
    produce). *)
Definition shuffled (dataset : list (nat * Z)) (batch_size num_workers : nat) :
    list (list nat * list Z) :=
  (λ b, (b.*1, b.*2)) <$> chunks (length dataset) batch_size dataset.

Definition process_batches :=
  @process_batches nat unit (list nat) (list Z) (list Qc) (list (nat * Z))
    apply_model argmax loss_fn torch_sum float_of zero_grad backward step len shuffled.

Definition train :=
  @train nat unit (list nat) (list Z) (list Qc) (list (nat * Z))
    apply_model argmax loss_fn torch_sum float_of zero_grad backward step len shuffled.

Definition trainset : list (nat * Z) := [(100%nat, 0); (101%nat, 1)].

Definition valset : list (nat * Z) :=
  ((λ i, (i, 0)) <$> seq 0 5) ++ ((λ i, (i, 1)) <$> seq 5 15).

(** Three examples of label 0, all predicted 0. *)
Definition zeros : list (nat * Z) := (λ i, (i, 0)) <$> seq 300 3.

(** A hundred examples of label 1, all predicted 0. *)
Definition hundred : list (nat * Z) := (λ i, (i, 1)) <$> seq 200 100.

(** The ten keys of the history, each bound to a list object of its own. *)
Definition keys : list string :=
  ["train_loss"; "train_accuracy"; "train_precision"; "train_recall"; "train_f1";
   "val_loss"; "val_accuracy"; "val_precision"; "val_recall"; "val_f1"].

Definition history : gmap string nat := list_to_map (zip keys (seq 0 10)).

(** A fresh model, an optimizer, and empty lists everywhere. *)
Definition w0 : @world nat unit := World 0%nat (Some tt) (λ _, []).

(** Four epochs in batches of eight; twelve epochs with the defaults. *)
Definition config4 : config :=
  Config (Some 8%nat) None (Some 4) None None None.


Definition evaluate :=
  @evaluate nat unit (list nat) (list Z) (list Qc) (list (nat * Z))
    apply_model argmax loss_fn torch_sum float_of zero_grad backward step len shuffled.

(** The fresh model without an optimizer. *)
Definition w_eval : @world nat unit := World 0%nat None (λ _, []).

(** Epochs 5 to 4: none.  Four epochs with a per-epoch checkpoint every
    second one. *)
Definition config_none : config :=
  Config None (Some 5) (Some 4) None None None.

Definition config_log2 : config :=
  Config None None (Some 4) (Some 2) None None.

(** A history that has [train_loss] only. *)
Definition history_loss : gmap string nat := {["train_loss" := 0%nat]}.

End TrainToy.

(** * Properties of the ABCNN-1 block *)

Section BlockProperties.
Context {Tensor Gen : Type}.
Variable attn : Tensor → Tensor → option (Tensor * Tensor).
Variable conv : Tensor → option Tensor.
Variable pool : Tensor → option Tensor.
Variable ap : Tensor → option Tensor.

(** A run that returns has gone through the attention, both convolutions
    and both width poolings, and its sentence vectors are the all-ap of
    the convolution outputs; its pooled sequences are dropout's outputs. *)
Lemma forward_inv dropout (g g' : Gen) x1 x2 out :
  ABCNN1.forward attn conv pool ap dropout g x1 x2 = Some (out, g') →
  ∃ c1 c2 p1 p2,
    ABCNN1.conv_outputs attn conv x1 x2 = Some (c1, c2) ∧
    pool c1 = Some p1 ∧ pool c2 = Some p2 ∧
    ABCNN1.w1 out = (dropout g p1).1 ∧
    ABCNN1.w2 out = (dropout (dropout g p1).2 p2).1 ∧
    ap c1 = Some (ABCNN1.a1 out) ∧ ap c2 = Some (ABCNN1.a2 out).
Proof.
  unfold ABCNN1.forward, ABCNN1.conv_outputs.
  destruct (attn x1 x2) as [[o1 o2]|]; simpl; [|done].
  destruct (conv o1) as [c1|]; simpl; [|done].
  destruct (conv o2) as [c2|]; simpl; [|done].
  destruct (pool c1) as [p1|] eqn:Hp1; simpl; [|done].
  destruct (pool c2) as [p2|] eqn:Hp2; simpl; [|done].
  destruct (dropout g p1) as [d1 g1] eqn:Hd1; simpl.
  destruct (dropout g1 p2) as [d2 g2] eqn:Hd2; simpl.
  destruct (ap c1) as [v1|] eqn:Hv1; simpl; [|done].
  destruct (ap c2) as [v2|] eqn:Hv2; simpl; [|done].
  intros [= <- <-]. exists c1, c2, p1, p2. simpl.
  rewrite Hd1. simpl. by rewrite Hd2.
Qed.

(** Whether a run returns, and with which sentence vectors, is decided
    before dropout is reached. *)
Lemma sentence_vectors_any_dropout (dropout dropout' : Gen → Tensor → Tensor * Gen) g g' x1 x2 :
  ABCNN1.sentence_vectors (ABCNN1.forward attn conv pool ap dropout g x1 x2) =
  ABCNN1.sentence_vectors (ABCNN1.forward attn conv pool ap dropout' g' x1 x2).
Proof.
  unfold ABCNN1.sentence_vectors, ABCNN1.forward.
  destruct (attn x1 x2) as [[o1 o2]|]; simpl; [|done].
  destruct (conv o1) as [c1|]; simpl; [|done].
  destruct (conv o2) as [c2|]; simpl; [|done].
  destruct (pool c1) as [p1|]; simpl; [|done].
  destruct (pool c2) as [p2|]; simpl; [|done].
  destruct (dropout g p1) as [d1 g1], (dropout g1 p2) as [d2 g2].
  destruct (dropout' g' p1) as [d1' g1'], (dropout' g1' p2) as [d2' g2'].
  destruct (ap c1) as [v1|]; simpl; [|done].
  by destruct (ap c2) as [v2|].
Qed.

Variable dropout : Gen → Tensor → Tensor * Gen.

(** The shape of a tensor, and the sizes the block is built for. *)
Variable shape : Tensor → list nat.
Variables (max_length input_size width output_size : nat).

(** The shape contracts of the sub-modules, as the comments of lines 47-51
    state them. *)
Hypothesis attn_shape : ∀ x1 x2 batch,
  shape x1 = [batch; 1; max_length; input_size]%nat →
  shape x2 = [batch; 1; max_length; input_size]%nat →
  ∃ o1 o2, attn x1 x2 = Some (o1, o2) ∧
    shape o1 = [batch; 2; max_length; input_size]%nat ∧
    shape o2 = [batch; 2; max_length; input_size]%nat.
Hypothesis conv_shape : ∀ o batch,
  shape o = [batch; 2; max_length; input_size]%nat →
  ∃ c, conv o = Some c ∧
    shape c = [batch; 1; max_length + width - 1; output_size]%nat.
Hypothesis pool_shape : ∀ c batch,
  shape c = [batch; 1; max_length + width - 1; output_size]%nat →
  ∃ w, pool c = Some w ∧ shape w = [batch; 1; max_length; output_size]%nat.
Hypothesis ap_shape : ∀ c batch,
  shape c = [batch; 1; max_length + width - 1; output_size]%nat →
  ∃ a, ap c = Some a ∧ shape a = [batch; output_size]%nat.
Hypothesis dropout_shape : ∀ g w, shape (dropout g w).1 = shape w.

(** C4.  For inputs [x1], [x2] of the same shape
    [(batch, 1, max_length, input_size)], [forward] returns; [w1] and [w2]
    have shape [(batch, 1, max_length, output_size)], [a1] and [a2] have
    shape [(batch, output_size)].  On the way the length is [max_length]
    after the attention, [max_length + width - 1] after the convolution
    and [max_length] again after width pooling. *)
Theorem forward_shapes g x1 x2 batch :
  shape x1 = [batch; 1; max_length; input_size]%nat →
  shape x2 = [batch; 1; max_length; input_size]%nat →
  ∃ out g' o1 o2 c1 c2,
    ABCNN1.forward attn conv pool ap dropout g x1 x2 = Some (out, g') ∧
    shape (ABCNN1.w1 out) = [batch; 1; max_length; output_size]%nat ∧
    shape (ABCNN1.w2 out) = [batch; 1; max_length; output_size]%nat ∧
    shape (ABCNN1.a1 out) = [batch; output_size]%nat ∧
    shape (ABCNN1.a2 out) = [batch; output_size]%nat ∧
    attn x1 x2 = Some (o1, o2) ∧
    shape o1 = [batch; 2; max_length; input_size]%nat ∧
    shape o2 = [batch; 2; max_length; input_size]%nat ∧
    ABCNN1.conv_outputs attn conv x1 x2 = Some (c1, c2) ∧
    shape c1 = [batch; 1; max_length + width - 1; output_size]%nat ∧
    shape c2 = [batch; 1; max_length + width - 1; output_size]%nat.
Proof.
  intros Hx1 Hx2. unfold ABCNN1.forward, ABCNN1.conv_outputs.
  destruct (attn_shape _ _ _ Hx1 Hx2) as (o1 & o2 & -> & Ho1 & Ho2); simpl.
  destruct (conv_shape _ _ Ho1) as (c1 & -> & Hc1); simpl.
  destruct (conv_shape _ _ Ho2) as (c2 & -> & Hc2); simpl.
  destruct (pool_shape _ _ Hc1) as (p1 & -> & Hp1); simpl.
  destruct (pool_shape _ _ Hc2) as (p2 & -> & Hp2); simpl.
  pose proof (dropout_shape g p1) as Hd1.
  destruct (dropout g p1) as [d1 g1]; simpl in Hd1.
  pose proof (dropout_shape g1 p2) as Hd2.
  destruct (dropout g1 p2) as [d2 g2]; simpl in Hd2.
  destruct (ap_shape _ _ Hc1) as (v1 & -> & Hv1); simpl.
  destruct (ap_shape _ _ Hc2) as (v2 & -> & Hv2); simpl.
  exists (ABCNN1.Outputs d1 d2 v1 v2), g2, o1, o2, c1, c2. simpl.
  rewrite Hd1, Hd2. done.
Qed.

End BlockProperties.

(** The sub-modules of the small block meet the shape contracts, for
    sentences of two positions and two features, width 2 and two filters. *)
Lemma toy_attn_shape x1 x2 batch :
  ABCNN1.Toy.dims x1 = [batch; 1; 2; 2]%nat →
  ABCNN1.Toy.dims x2 = [batch; 1; 2; 2]%nat →
  ∃ o1 o2, ABCNN1.Toy.attn x1 x2 = Some (o1, o2) ∧
    ABCNN1.Toy.dims o1 = [batch; 2; 2; 2]%nat ∧
    ABCNN1.Toy.dims o2 = [batch; 2; 2; 2]%nat.
Proof.
  intros H1 H2. unfold ABCNN1.Toy.attn. rewrite H1, H2.
  rewrite bool_decide_eq_true_2 by done. by eexists _, _.
Qed.

Lemma toy_conv_shape o batch :
  ABCNN1.Toy.dims o = [batch; 2; 2; 2]%nat →
  ∃ c, ABCNN1.Toy.conv o = Some c ∧ ABCNN1.Toy.dims c = [batch; 1; 2 + 2 - 1; 2]%nat.
Proof. intros H. unfold ABCNN1.Toy.conv. rewrite H. by eexists. Qed.

Lemma toy_pool_shape c batch :
  ABCNN1.Toy.dims c = [batch; 1; 2 + 2 - 1; 2]%nat →
  ∃ w, ABCNN1.Toy.pool c = Some w ∧ ABCNN1.Toy.dims w = [batch; 1; 2; 2]%nat.
Proof. intros H. unfold ABCNN1.Toy.pool. rewrite H. by eexists. Qed.

Lemma toy_ap_shape c batch :
  ABCNN1.Toy.dims c = [batch; 1; 2 + 2 - 1; 2]%nat →
  ∃ a, ABCNN1.Toy.ap c = Some a ∧ ABCNN1.Toy.dims a = [batch; 2]%nat.
Proof. intros H. unfold ABCNN1.Toy.ap. rewrite H. by eexists. Qed.

Lemma toy_dropout_shape g w :
  ABCNN1.Toy.dims (ABCNN1.Toy.dropout g w).1 = ABCNN1.Toy.dims w.
Proof.
  unfold ABCNN1.Toy.dropout.
  destruct (ABCNN1.Toy.dims w) as [|b [|ch [|l [|c [|]]]]] eqn:E; simpl; congruence.
Qed.

Lemma forward_shapes_witness :
  ∃ out g' o1 o2 c1 c2,
    ABCNN1.Toy.forward [true; false] ABCNN1.Toy.x1 ABCNN1.Toy.x2 = Some (out, g') ∧
    ABCNN1.Toy.dims (ABCNN1.w1 out) = [1; 1; 2; 2]%nat ∧
    ABCNN1.Toy.dims (ABCNN1.w2 out) = [1; 1; 2; 2]%nat ∧
    ABCNN1.Toy.dims (ABCNN1.a1 out) = [1; 2]%nat ∧
    ABCNN1.Toy.dims (ABCNN1.a2 out) = [1; 2]%nat ∧
    ABCNN1.Toy.attn ABCNN1.Toy.x1 ABCNN1.Toy.x2 = Some (o1, o2) ∧
    ABCNN1.Toy.dims o1 = [1; 2; 2; 2]%nat ∧
    ABCNN1.Toy.dims o2 = [1; 2; 2; 2]%nat ∧
    ABCNN1.conv_outputs ABCNN1.Toy.attn ABCNN1.Toy.conv ABCNN1.Toy.x1 ABCNN1.Toy.x2
      = Some (c1, c2) ∧
    ABCNN1.Toy.dims c1 = [1; 1; 2 + 2 - 1; 2]%nat ∧
    ABCNN1.Toy.dims c2 = [1; 1; 2 + 2 - 1; 2]%nat.
Proof.
  apply (forward_shapes ABCNN1.Toy.attn ABCNN1.Toy.conv ABCNN1.Toy.pool ABCNN1.Toy.ap
           ABCNN1.Toy.dropout ABCNN1.Toy.dims 2 2 2 2
           toy_attn_shape toy_conv_shape toy_pool_shape toy_ap_shape toy_dropout_shape
           [true; false] ABCNN1.Toy.x1 ABCNN1.Toy.x2 1); reflexivity.
Defined.

(** C1.  Whatever the dropout module and the state of its generator, a
    run returns the same sentence vectors [a1], [a2] (or raises all the
    same): they are the all-ap of the convolution outputs [c1], [c2], which
    do not pass through dropout.  The pooled sequences [w1], [w2] are
    dropout's outputs and may differ between two runs: on the small block
    they do. *)
Theorem sentence_vectors_dropout_invariant :
  (∀ (Tensor Gen : Type) attn conv pool ap
     (dropout dropout' : Gen → Tensor → Tensor * Gen) (g g' : Gen) (x1 x2 : Tensor),
     ABCNN1.sentence_vectors (ABCNN1.forward attn conv pool ap dropout g x1 x2) =
     ABCNN1.sentence_vectors (ABCNN1.forward attn conv pool ap dropout' g' x1 x2) ∧
     ∀ out g1, ABCNN1.forward attn conv pool ap dropout g x1 x2 = Some (out, g1) →
       ∃ c1 c2, ABCNN1.conv_outputs attn conv x1 x2 = Some (c1, c2) ∧
         ap c1 = Some (ABCNN1.a1 out) ∧ ap c2 = Some (ABCNN1.a2 out)) ∧
  ABCNN1.sentence_vectors (ABCNN1.Toy.forward [true; false] ABCNN1.Toy.x1 ABCNN1.Toy.x2) =
  ABCNN1.sentence_vectors (ABCNN1.Toy.forward [false; false] ABCNN1.Toy.x1 ABCNN1.Toy.x2) ∧
  is_Some (ABCNN1.Toy.forward [true; false] ABCNN1.Toy.x1 ABCNN1.Toy.x2) ∧
  ABCNN1.pooled_sequences (ABCNN1.Toy.forward [true; false] ABCNN1.Toy.x1 ABCNN1.Toy.x2) ≠
  ABCNN1.pooled_sequences (ABCNN1.Toy.forward [false; false] ABCNN1.Toy.x1 ABCNN1.Toy.x2).
Proof.
  split; [|split; [|split]].
  - intros Tensor Gen attn conv pool ap dropout dropout' g g' x1 x2. split.
    + apply sentence_vectors_any_dropout.
    + intros out g1 Hrun.
      destruct (forward_inv _ _ _ _ _ _ _ _ _ _ Hrun)
        as (c1 & c2 & p1 & p2 & Hc & _ & _ & _ & _ & Ha1 & Ha2).
      by exists c1, c2.
  - apply sentence_vectors_any_dropout.
  - vm_compute. by eexists.
  - vm_compute. intros H. discriminate H.
Qed.

(** * Properties of the metric functions *)

Lemma count_pairs_absent_true t p y_true y_pred :
  t ∉ y_true → sklearn.count_pairs t p y_true y_pred = 0%nat.
Proof.
  unfold sklearn.count_pairs. revert y_pred.
  induction y_true as [|a y_true IH]; intros [|b y_pred] Hnot; simpl; try done.
  rewrite not_elem_of_cons in Hnot. destruct Hnot as [Hne Hnot].
  rewrite filter_cons_False by (simpl; intros [? _]; congruence).
  by apply IH.
Qed.

Lemma count_pairs_absent_pred t p y_true y_pred :
  p ∉ y_pred → sklearn.count_pairs t p y_true y_pred = 0%nat.
Proof.
  unfold sklearn.count_pairs. revert y_pred.
  induction y_true as [|a y_true IH]; intros [|b y_pred] Hnot; simpl; try done.
  rewrite not_elem_of_cons in Hnot. destruct Hnot as [Hne Hnot].
  rewrite filter_cons_False by (simpl; intros [_ ?]; congruence).
  by apply IH.
Qed.

(** With [labels=[0, 1]] the matrix has the four counts in this order. *)
Lemma confusion_matrix_01 y_true y_pred :
  sklearn.confusion_matrix y_true y_pred [0; 1] =
  [[sklearn.count_pairs 0 0 y_true y_pred; sklearn.count_pairs 0 1 y_true y_pred];
   [sklearn.count_pairs 1 0 y_true y_pred; sklearn.count_pairs 1 1 y_true y_pred]].
Proof. reflexivity. Qed.

(** Macro F1 over two batches taken together is not the mean of the macro
    F1 of each batch. *)
Lemma f1_score_not_batch_mean :
  sklearn.f1_score ([0; 0] ++ [1; 1]) ([0; 0] ++ [0; 1]) ≠
  mean [sklearn.f1_score [0; 0] [0; 0]; sklearn.f1_score [1; 1] [0; 1]].
Proof. vm_compute. intros H. discriminate H. Qed.

(** * Properties of the file names *)

(** For names that do not start with a slash, joining to one directory is
    injective. *)
Lemma os_path_join_inj dir b b' :
  String.prefix "/" b = false → String.prefix "/" b' = false →
  os_path_join dir b = os_path_join dir b' → b = b'.
Proof.
  unfold os_path_join. intros -> ->.
  destruct (bool_decide (dir = "") || String.prefix "/" (String.rev dir)).
  - apply String.app_inj.
  - intros H. apply String.app_inj in H. by apply String.app_inj in H.
Qed.

Lemma epoch_file_not_best dir epoch :
  os_path_join dir ("checkpoint_epoch_" +:+ str_of_int epoch) ≠
  os_path_join dir "best_checkpoint".
Proof. intros H. apply os_path_join_inj in H; done. Qed.


(** * Properties of the running maximum *)

Lemma record_epochs_subseteq best scores : record_epochs best scores ⊆ scores.*1.
Proof.
  revert best. induction scores as [|[e f] scores IH]; intros best; simpl; [done|].
  destruct (py_gt f best).
  - intros x. rewrite !elem_of_cons. intros [->|Hx]; [by left|right; by apply (IH f)].
  - intros x Hx. right. by apply (IH best).
Qed.

(** The epoch at position [i] is recorded exactly when its score exceeds
    [best] and every score before it. *)
Lemma record_epochs_elem scores : ∀ best i e f,
  NoDup scores.*1 → scores !! i = Some (e, f) →
  e ∈ record_epochs best scores ↔ Forall (λ g, (g < f)%Qc) (best :: take i scores.*2).
Proof.
  induction scores as [|[e0 f0] scores IH]; intros best i e f Hnd Hi; [done|].
  simpl in Hnd. apply NoDup_cons in Hnd as [Hfresh Hnd].
  destruct i as [|i]; simpl in Hi.
  - injection Hi as -> ->. simpl. unfold py_gt. case_bool_decide as Hgt.
    + split; [|intros _; by left]. intros _. by repeat constructor.
    + split.
      * intros He%record_epochs_subseteq. done.
      * intros Hall. by apply Forall_cons in Hall as [? _].
  - assert (e ≠ e0) as Hne.
    { intros ->. apply Hfresh. apply list_elem_of_fmap. exists (e0, f).
      split; [done|]. by eapply list_elem_of_lookup_2. }
    simpl. unfold py_gt. case_bool_decide as Hgt.
    + rewrite elem_of_cons, (IH f0 i e f Hnd Hi), !Forall_cons.
      split.
      * intros [?|[? ?]]; [done|]. split_and!; [|done..]. by eapply Qclt_trans.
      * intros (? & ? & ?). right. done.
    + rewrite (IH best i e f Hnd Hi), !Forall_cons.
      apply Qcnot_lt_le in Hgt.
      split.
      * intros [? ?]. split_and!; [done| |done]. by eapply Qcle_lt_trans.
      * intros (? & ? & ?). done.
Qed.

(** * A fact about [filter] *)



Lemma list_filter_nil_helper {A} (P : A → Prop) `{∀ x, Decision (P x)} (l : list A) :
  (∀ x, x ∈ l → ¬ P x) → filter P l = [].
Proof.
  induction l as [|x l IH]; intros HP; [done|].
  rewrite filter_cons, decide_False by (apply HP; by left).
  apply IH. intros y Hy. apply HP. by right.
Qed.

(** Exactly one entry of a duplicate-free list satisfies a predicate that
    singles out one of its entries. *)
Lemma filter_singles_out {A} (P : A → Prop) `{∀ x, Decision (P x)} (l : list A) (a : A) :
  NoDup l → a ∈ l → (∀ x, x ∈ l → P x ↔ x = a) → length (filter P l) = 1%nat.
Proof.
  induction l as [|x l IH]; intros Hnd Ha HP; [by apply elem_of_nil in Ha|].
  apply NoDup_cons in Hnd as [Hx Hnd]. rewrite filter_cons.
  destruct (decide (P x)) as [HPx|HPx].
  - apply HP in HPx as ->; [|by left]. simpl. f_equal.
    apply length_zero_iff_nil. apply list_filter_nil_helper.
    intros y Hy HPy. apply HP in HPy; [|by right]. by subst.
  - apply IH; [done| |].
    + apply elem_of_cons in Ha as [->|?]; [|done].
      exfalso. apply HPx. apply HP; [by left|done].
    + intros y Hy. apply HP. by right.
Qed.

Lemma length_filter_fmap {A B} (f : A → B) (P : B → Prop) `{∀ x, Decision (P x)} (l : list A) :
  length (filter (λ x, P (f x)) l) = length (filter P (f <$> l)).
Proof.
  induction l as [|x l IH]; [done|].
  rewrite fmap_cons, !filter_cons. destruct (decide (P (f x))); simpl; by rewrite IH.
Qed.

(** * Properties of the history keys *)

Lemma history_keys_NoDup : NoDup history_keys.
Proof. apply (bool_decide_unpack _). by vm_compute. Qed.

Lemma history_keys_items r :
  history_keys =
  (String.append "train_" <$> (items r).*1) ++ (String.append "val_" <$> (items r).*1).
Proof. reflexivity. Qed.

(** One epoch appends to a list object one value for each of the ten keys
    bound to it. *)
Lemma appended_count (history : gmap string nat) rt rv l :
  length (appended_to history "train_" (items rt) l ++
          appended_to history "val_" (items rv) l) =
  length (filter (λ k, history !! k = Some l) history_keys).
Proof.
  unfold appended_to.
  rewrite length_app, !length_fmap.
  pose proof (length_filter_fmap (λ nv : string * Qc, "train_" +:+ nv.1)
                (λ k', history !! k' = Some l) (items rt)) as Ht.
  pose proof (length_filter_fmap (λ nv : string * Qc, "val_" +:+ nv.1)
                (λ k', history !! k' = Some l) (items rv)) as Hv.
  cbv beta in Ht, Hv. rewrite Ht, Hv.
  by rewrite <- length_app, <- filter_app.
Qed.

(** A list object bound to one of the ten keys only. *)
Lemma bound_once (history : gmap string nat) k l :
  k ∈ history_keys → history !! k = Some l →
  (∀ k', k' ∈ history_keys → history !! k' = Some l → k' = k) →
  length (filter (λ k, history !! k = Some l) history_keys) = 1%nat.
Proof.
  intros Hk Hl Honly.
  apply (filter_singles_out _ _ k); [apply history_keys_NoDup|done|].
  intros k' Hk'. split; [by apply Honly|by intros ->].
Qed.

(** * Properties of [train.py] *)

Section TrainProperties.
Context {Model Optimizer Features Scores Loss Dataset : Type}.
Variable apply_model : Model → Features → Scores.
Variable argmax : Scores → list Z.
Variable loss_fn : Scores → list Z → Loss.
Variable torch_sum : Loss → Loss.
Variable float_of : Loss → Qc.
Variable zero_grad : Optimizer → Model → Model.
Variable backward : Loss → Model → Model.
Variable step : Optimizer → Model → Model * Optimizer.
Variable len : Dataset → nat.
Variable shuffled : Dataset → nat → nat → list (Features * list Z).

(** The loops, unfolded once. *)
Lemma batch_loop_cons is_training features targets batches total_loss actual predicted :
  batch_loop apply_model argmax loss_fn torch_sum float_of zero_grad backward step
    is_training ((features, targets) :: batches) total_loss actual predicted =
  (model ← get_model;
   let scores := apply_model model features in
   let batch_loss := torch_sum (loss_fn scores targets) in
   (if is_training then
      optimizer_zero_grad zero_grad;;
      loss_backward backward batch_loss;;
      optimizer_step step
    else ret tt);;
   batch_loop apply_model argmax loss_fn torch_sum float_of zero_grad backward step
     is_training batches (total_loss + float_of batch_loss)%Qc (actual ++ targets)
     (predicted ++ argmax scores)).
Proof. reflexivity. Qed.

Lemma epoch_loop_cons history trainset valset batch_size num_workers log_every
    checkpoint_dir epoch epochs best :
  epoch_loop apply_model argmax loss_fn torch_sum float_of zero_grad backward step
    len shuffled history trainset valset batch_size num_workers log_every
    checkpoint_dir (epoch :: epochs) best =
  (best ← train_epoch apply_model argmax loss_fn torch_sum float_of zero_grad backward
            step len shuffled history trainset valset batch_size num_workers
            log_every checkpoint_dir epoch best;
   epoch_loop apply_model argmax loss_fn torch_sum float_of zero_grad backward step
     len shuffled history trainset valset batch_size num_workers log_every
     checkpoint_dir epochs best).
Proof. reflexivity. Qed.

Lemma update_history_cons history prefix name val its :
  @update_history Model Optimizer Loss history prefix ((name, val) :: its) =
  (history_append history (prefix +:+ name) val;; update_history history prefix its).
Proof. reflexivity. Qed.

Lemma train_unfold history trainset valset config :
  train apply_model argmax loss_fn torch_sum float_of zero_grad backward step
    len shuffled history trainset valset config =
  (epoch_loop apply_model argmax loss_fn torch_sum float_of zero_grad backward step
     len shuffled history trainset valset (default 20%nat (batch_size config))
     (default 4%nat (num_workers config)) (log_every_of config)
     (checkpoint_dir_of config) (epochs_of config) 0%Qc;;
   get_model).
Proof. reflexivity. Qed.

Local Abbreviation world := (@world Model Optimizer).
Local Abbreviation event := (@event Model Optimizer Loss).
Local Abbreviation M := (@M Model Optimizer Loss).
Local Abbreviation ret := (ret (Model:=Model) (Optimizer:=Optimizer) (Loss:=Loss)).
Local Abbreviation raise := (raise (Model:=Model) (Optimizer:=Optimizer) (Loss:=Loss)).
Local Abbreviation get_model := (@get_model Model Optimizer Loss).
Local Abbreviation emit := (@emit Model Optimizer Loss).
Local Abbreviation optimizer_zero_grad := (@optimizer_zero_grad Model Optimizer Loss zero_grad).
Local Abbreviation loss_backward := (@loss_backward Model Optimizer Loss backward).
Local Abbreviation optimizer_step := (@optimizer_step Model Optimizer Loss step).
Local Abbreviation py_div := (@py_div Model Optimizer Loss).
Local Abbreviation DataLoader := (DataLoader len shuffled).
Local Abbreviation new_DataLoader :=
  (@new_DataLoader Model Optimizer Features Loss Dataset len shuffled).
Local Abbreviation history_append := (@history_append Model Optimizer Loss).
Local Abbreviation update_history := (@update_history Model Optimizer Loss).
Local Abbreviation save_checkpoint := (@save_checkpoint Model Optimizer Loss).
Local Abbreviation generate_plots := (@generate_plots Model Optimizer Loss).
Local Abbreviation report := (@report Model Optimizer Loss).
Local Abbreviation best_events := (@best_events Model Optimizer Loss).
Local Abbreviation periodic_events := (@periodic_events Model Optimizer Loss).
Local Abbreviation batch_loop :=
  (batch_loop apply_model argmax loss_fn torch_sum float_of zero_grad backward step).
Local Abbreviation process_batches :=
  (process_batches apply_model argmax loss_fn torch_sum float_of zero_grad backward step
     len shuffled).
Local Abbreviation train_epoch :=
  (train_epoch apply_model argmax loss_fn torch_sum float_of zero_grad backward step
     len shuffled).
Local Abbreviation epoch_loop :=
  (epoch_loop apply_model argmax loss_fn torch_sum float_of zero_grad backward step
     len shuffled).
Local Abbreviation train :=
  (train apply_model argmax loss_fn torch_sum float_of zero_grad backward step
     len shuffled).
Local Abbreviation batch_loss_of := (batch_loss_of apply_model loss_fn torch_sum).
Local Abbreviation sgd_update :=
  (sgd_update apply_model loss_fn torch_sum zero_grad backward step).
Local Abbreviation training_models :=
  (training_models apply_model loss_fn torch_sum zero_grad backward step).
Local Abbreviation training_end :=
  (training_end apply_model loss_fn torch_sum zero_grad backward step).
Local Abbreviation pass_models :=
  (pass_models apply_model loss_fn torch_sum zero_grad backward step).
Local Abbreviation pass_world :=
  (pass_world apply_model loss_fn torch_sum zero_grad backward step).
Local Abbreviation pass_events :=
  (pass_events apply_model loss_fn torch_sum zero_grad backward step).
Local Abbreviation predictions_of := (predictions_of apply_model argmax).
Local Abbreviation batch_losses := (batch_losses apply_model loss_fn torch_sum float_of).
Local Abbreviation training_events :=
  (training_events (Optimizer:=Optimizer) apply_model loss_fn torch_sum).

(** ** The monad *)

Lemma bind_ok {A B} (m : M A) (k : A → M B) (w w1 w2 : world) a t r t2 :
  m w = (Ok a, w1, t) → k a w1 = (r, w2, t2) → (m ≫= k) w = (r, w2, t ++ t2).
Proof. intros Hm Hk. unfold mbind, M_bind, bind. by rewrite Hm, Hk. Qed.

Lemma bind_raise {A B} (m : M A) (k : A → M B) (w w1 : world) e t :
  m w = (Raise e, w1, t) → (m ≫= k) w = (Raise e, w1, t).
Proof. intros Hm. unfold mbind, M_bind, bind. by rewrite Hm. Qed.

Lemma bind_ret {A B} (a : A) (k : A → M B) (w : world) : (ret a ≫= k) w = k a w.
Proof. unfold mbind, M_bind, bind, ret. by destruct (k a w) as [[r w2] t']. Qed.

Lemma bind_get_model {B} (k : Model → M B) (w : world) :
  (get_model ≫= k) w = k (w_model w) w.
Proof. unfold mbind, M_bind, bind, get_model. by destruct (k _ w) as [[r w2] t']. Qed.

(** A computation that returns in every world goes on with its
    continuation. *)
Lemma bind_inv {A B} (m : M A) (k : A → M B) (w w2 : world) r t :
  (m ≫= k) w = (r, w2, t) →
  (∃ e, r = Raise e ∧ m w = (Raise e, w2, t)) ∨
  (∃ a w1 t1 t2, m w = (Ok a, w1, t1) ∧ k a w1 = (r, w2, t2) ∧ t = t1 ++ t2).
Proof.
  unfold mbind, M_bind, bind.
  destruct (m w) as [[[a|e] w1] t1].
  - destruct (k a w1) as [[r' w2'] t2] eqn:Hk. intros [= <- <- <-].
    right. by exists a, w1, t1, t2.
  - intros [= <- <- <-]. left. by exists e.
Qed.

(** ** The autograd and optimizer calls *)

Lemma optimizer_zero_grad_ok (w : world) o :
  w_optimizer w = Some o →
  optimizer_zero_grad w =
  (Ok tt, World (zero_grad o (w_model w)) (Some o) (w_heap w), [EvZeroGrad]).
Proof. intros Ho. unfold optimizer_zero_grad. by rewrite Ho. Qed.

Lemma optimizer_step_ok (w : world) o :
  w_optimizer w = Some o →
  optimizer_step w =
  (Ok tt, World (step o (w_model w)).1 (Some (step o (w_model w)).2) (w_heap w), [EvStep]).
Proof.
  intros Ho. unfold optimizer_step. rewrite Ho. by destruct (step o (w_model w)).
Qed.

(** Lines 237-239 with an optimizer at hand. *)
Lemma update_ok (w : world) o b :
  w_optimizer w = Some o →
  ((optimizer_zero_grad;;
    loss_backward (batch_loss_of (w_model w) b);;
    optimizer_step) : M unit) w =
  (Ok tt,
   World (sgd_update b (w_model w) o).1 (Some (sgd_update b (w_model w) o).2) (w_heap w),
   [EvZeroGrad; EvBackward (batch_loss_of (w_model w) b); EvStep]).
Proof.
  intros Ho.
  unfold mbind, M_bind, bind, optimizer_zero_grad, loss_backward,
    optimizer_step.
  rewrite Ho. simpl. unfold sgd_update.
  by destruct (step o _) as [m' o'].
Qed.

(** Without an optimizer the first call of line 237 raises. *)
Lemma update_no_optimizer (w : world) bl :
  w_optimizer w = None →
  ((optimizer_zero_grad;; loss_backward bl;; optimizer_step) : M unit) w =
  (Raise AttributeError, w, []).
Proof.
  intros Ho. apply bind_raise. unfold optimizer_zero_grad. by rewrite Ho.
Qed.

(** ** The loop over the batches *)

Lemma batch_loop_eval batches : ∀ total_loss actual predicted (w : world),
  batch_loop false batches total_loss actual predicted w =
  (Ok (foldl Qcplus total_loss (batch_losses (replicate (length batches) (w_model w)) batches),
       actual ++ targets_of batches,
       predicted ++ predictions_of (replicate (length batches) (w_model w)) batches),
   w, []).
Proof.
  induction batches as [|[features targets] batches IH]; intros total_loss actual predicted w.
  - simpl. unfold ret, targets_of, predictions_of. simpl. by rewrite !app_nil_r.
  - rewrite batch_loop_cons, bind_get_model. cbv zeta.
    rewrite bind_ret, IH.
    unfold targets_of, predictions_of, batch_losses. simpl.
    by rewrite !app_assoc.
Qed.

Lemma batch_loop_train batches : ∀ o total_loss actual predicted (w : world),
  w_optimizer w = Some o →
  batch_loop true batches total_loss actual predicted w =
  (Ok (foldl Qcplus total_loss (batch_losses (training_models o (w_model w) batches) batches),
       actual ++ targets_of batches,
       predicted ++ predictions_of (training_models o (w_model w) batches) batches),
   World (training_end o (w_model w) batches).1 (Some (training_end o (w_model w) batches).2)
     (w_heap w),
   training_events (training_models o (w_model w) batches) batches).
Proof.
  induction batches as [|[features targets] batches IH];
    intros o total_loss actual predicted w Ho.
  - simpl. unfold ret, targets_of, predictions_of, training_events. simpl.
    rewrite !app_nil_r. destruct w; simpl in *. by subst.
  - rewrite batch_loop_cons, bind_get_model. cbv zeta.
    erewrite bind_ok; [|by apply (update_ok w o (features, targets))|by apply IH].
    unfold targets_of, predictions_of, batch_losses, training_events. simpl.
    by rewrite !app_assoc.
Qed.

Lemma batch_loop_no_optimizer b batches total_loss actual predicted (w : world) :
  w_optimizer w = None →
  batch_loop true (b :: batches) total_loss actual predicted w = (Raise AttributeError, w, []).
Proof.
  intros Ho. destruct b as [features targets].
  rewrite batch_loop_cons, bind_get_model. cbv zeta.
  apply bind_raise. by apply update_no_optimizer.
Qed.

(** The loop in either mode, when the optimizer that training needs is
    at hand. *)
Lemma batch_loop_spec is_training batches total_loss actual predicted (w : world) :
  (is_training = true → is_Some (w_optimizer w)) →
  batch_loop is_training batches total_loss actual predicted w =
  (Ok (foldl Qcplus total_loss (batch_losses (pass_models is_training w batches) batches),
       actual ++ targets_of batches,
       predicted ++ predictions_of (pass_models is_training w batches) batches),
   pass_world is_training w batches, pass_events is_training w batches).
Proof.
  intros Ho. destruct is_training.
  - destruct Ho as [o Ho]; [done|].
    rewrite (batch_loop_train batches o) by done.
    unfold pass_models, pass_world, pass_events, pass_models. by rewrite Ho.
  - by rewrite batch_loop_eval.
Qed.

(** ** [process_batches] *)

Lemma DataLoader_empty dataset batch_size num_workers :
  len dataset = 0%nat → DataLoader dataset batch_size num_workers = [].
Proof. intros Hlen. unfold DataLoader. by rewrite bool_decide_eq_true_2. Qed.

(** A pass over no batch changes nothing. *)
Lemma pass_no_batch is_training (w : world) :
  (is_training = true → is_Some (w_optimizer w)) →
  pass_world is_training w [] = w ∧ pass_events is_training w [] = [].
Proof.
  intros Ho. unfold pass_world, pass_events, pass_models.
  destruct is_training; [|done].
  destruct Ho as [o Ho]; [done|]. rewrite Ho. simpl. destruct w; simpl in *. by subst.
Qed.

(** On a dataset of length 0 the loader is not built. *)
Lemma process_batches_empty dataset batch_size num_workers is_training (w : world) :
  len dataset = 0%nat →
  process_batches dataset batch_size num_workers is_training w = (Raise ValueError, w, []).
Proof.
  intros Hlen. unfold process_batches. apply bind_raise.
  unfold new_DataLoader. by rewrite bool_decide_eq_true_2.
Qed.

(** A loader without batch: the loop does nothing. *)
Lemma process_batches_no_batch dataset batch_size num_workers is_training (w : world) :
  DataLoader dataset batch_size num_workers = [] →
  process_batches dataset batch_size num_workers is_training w =
  (if bool_decide (len dataset = 0%nat) then Raise ValueError
   else Ok (let results :=
              Results (0 / Qc_of_nat (len dataset))%Qc
                (sklearn.accuracy_score [] []) (sklearn.precision_score [] [])
                (sklearn.recall_score [] []) (sklearn.f1_score [] []) in
            let cm := sklearn.confusion_matrix [] [] [0; 1] in
            if is_training then Ret3 (w_model w) results cm else Ret2 results cm),
   w, []).
Proof.
  intros Hb. case_bool_decide as Hlen; [by apply process_batches_empty|].
  unfold process_batches, new_DataLoader. rewrite bool_decide_eq_false_2 by done.
  rewrite bind_ret, Hb. unfold mbind, M_bind, bind. simpl.
  unfold py_div. rewrite bool_decide_eq_false_2 by done. by destruct is_training.
Qed.

Lemma process_batches_spec dataset batch_size num_workers is_training (w : world) :
  (is_training = true → is_Some (w_optimizer w)) →
  let batches := DataLoader dataset batch_size num_workers in
  let ms := pass_models is_training w batches in
  let actual := targets_of batches in
  let predicted := predictions_of ms batches in
  let results :=
    Results (foldl Qcplus 0 (batch_losses ms batches) / Qc_of_nat (len dataset))%Qc
      (sklearn.accuracy_score actual predicted) (sklearn.precision_score actual predicted)
      (sklearn.recall_score actual predicted) (sklearn.f1_score actual predicted) in
  let cm := sklearn.confusion_matrix actual predicted [0; 1] in
  process_batches dataset batch_size num_workers is_training w =
  (if bool_decide (len dataset = 0%nat) then Raise ValueError
   else Ok (if is_training then Ret3 (w_model (pass_world is_training w batches)) results cm
            else Ret2 results cm),
   pass_world is_training w batches, pass_events is_training w batches).
Proof.
  intros Ho. cbv zeta. destruct (decide (len dataset = 0%nat)) as [Hlen|Hlen].
  - rewrite process_batches_empty, bool_decide_eq_true_2, DataLoader_empty by done.
    by destruct (pass_no_batch is_training w Ho) as [-> ->].
  - unfold process_batches, new_DataLoader. rewrite !bool_decide_eq_false_2 by done.
    rewrite bind_ret. unfold mbind, M_bind, bind.
    rewrite batch_loop_spec by done. cbv beta iota. simpl app.
    unfold py_div. rewrite bool_decide_eq_false_2 by done.
    unfold ret. destruct is_training; unfold get_model; by rewrite !app_nil_r.
Qed.

Lemma process_batches_no_optimizer dataset batch_size num_workers (w : world) :
  w_optimizer w = None →
  DataLoader dataset batch_size num_workers ≠ [] →
  process_batches dataset batch_size num_workers true w = (Raise AttributeError, w, []).
Proof.
  intros Ho Hb.
  assert (len dataset ≠ 0%nat) as Hlen.
  { intros Hlen. by rewrite DataLoader_empty in Hb. }
  unfold process_batches, new_DataLoader. rewrite bool_decide_eq_false_2 by done.
  rewrite bind_ret.
  destruct (DataLoader dataset batch_size num_workers) as [|b batches]; [done|].
  apply bind_raise. by apply batch_loop_no_optimizer.
Qed.

(** A pass that returns hands back the tuple of its mode; in training
    mode the first component is the model as the pass left it. *)
Lemma process_batches_tuple dataset batch_size num_workers is_training (w : world) x :
  result_of (process_batches dataset batch_size num_workers is_training w) = Ok x →
  x = (if is_training
       then Ret3 (w_model (world_of (process_batches dataset batch_size num_workers true w)))
              (results_of x) (cm_of x)
       else Ret2 (results_of x) (cm_of x)).
Proof.
  destruct is_training.
  - destruct (w_optimizer w) as [o|] eqn:Ho.
    + rewrite process_batches_spec by (by rewrite Ho). unfold result_of, world_of. simpl.
      case_bool_decide; [done|]. by intros [= <-].
    + destruct (DataLoader dataset batch_size num_workers) as [|b batches] eqn:Hb.
      * rewrite process_batches_no_batch by done. unfold result_of, world_of. simpl.
        case_bool_decide; [done|]. by intros [= <-].
      * rewrite process_batches_no_optimizer by (done || by rewrite Hb). done.
  - rewrite process_batches_spec by done. unfold result_of. simpl.
    case_bool_decide; [done|]. by intros [= <-].
Qed.

(** What a pass that returns has computed. *)
Lemma process_batches_ok dataset batch_size num_workers is_training (w : world) x :
  result_of (process_batches dataset batch_size num_workers is_training w) = Ok x →
  let batches := DataLoader dataset batch_size num_workers in
  let ms := pass_models is_training w batches in
  let actual := targets_of batches in
  let predicted := predictions_of ms batches in
  len dataset ≠ 0%nat ∧
  results_of x =
    Results (foldl Qcplus 0 (batch_losses ms batches) / Qc_of_nat (len dataset))%Qc
      (sklearn.accuracy_score actual predicted) (sklearn.precision_score actual predicted)
      (sklearn.recall_score actual predicted) (sklearn.f1_score actual predicted) ∧
  cm_of x = sklearn.confusion_matrix actual predicted [0; 1].
Proof.
  intros Hx. cbv zeta.
  destruct (decide (is_training = true → is_Some (w_optimizer w))) as [Ho|Ho].
  - rewrite process_batches_spec in Hx by done. unfold result_of in Hx. simpl in Hx.
    case_bool_decide; [done|]. injection Hx as <-. by destruct is_training; simpl.
  - destruct is_training; [|by destruct Ho].
    destruct (w_optimizer w) as [o|] eqn:Ew; [by destruct Ho|].
    destruct (DataLoader dataset batch_size num_workers) as [|b batches] eqn:Hb.
    + revert Hx. rewrite process_batches_no_batch by done. unfold result_of. simpl.
      case_bool_decide; [done|]. intros [= <-]. simpl.
      unfold pass_models. by rewrite Ew.
    + rewrite process_batches_no_optimizer in Hx by (done || by rewrite Hb). done.
Qed.

(** ** What a pass returns *)

(** C9.  On a dataset of length 0 the division of line 242 is not
    reached.  The constructor call of lines 212-214 raises [ValueError]
    first: with [shuffle=True] it builds a [RandomSampler], which refuses a
    dataset without samples.  Nothing in [process_batches] catches the
    exception, so the call ends with it before any batch is processed,
    with the model, the optimizer and the lists as they were, and returns
    no result.  It does not end with [ZeroDivisionError]. *)
Theorem process_batches_empty_dataset dataset batch_size num_workers is_training (w : world) :
  len dataset = 0%nat →
  process_batches dataset batch_size num_workers is_training w = (Raise ValueError, w, []) ∧
  (∀ x, result_of (process_batches dataset batch_size num_workers is_training w) ≠ Ok x) ∧
  result_of (process_batches dataset batch_size num_workers is_training w)
    ≠ Raise ZeroDivisionError.
Proof.
  intros Hlen. unfold process_batches.
  erewrite bind_raise; [done|].
  unfold new_DataLoader. by rewrite bool_decide_eq_true_2.
Qed.

(** C8.  On a dataset of non-zero length the pass returns, and the loss
    it reports is the running sum of the batch losses (started at 0,
    each batch loss added in turn) divided by [len(dataset)]; for a
    dataset of length 100 and a sum of 250.0 that is 2.5. *)
Theorem process_batches_loss dataset batch_size num_workers is_training (w : world) :
  len dataset ≠ 0%nat →
  (is_training = true → is_Some (w_optimizer w)) →
  let batches := DataLoader dataset batch_size num_workers in
  let total_loss := foldl Qcplus 0%Qc (batch_losses (pass_models is_training w batches) batches) in
  ∃ x, result_of (process_batches dataset batch_size num_workers is_training w) = Ok x ∧
    loss (results_of x) = (total_loss / Qc_of_nat (len dataset))%Qc ∧
    (len dataset = 100%nat → total_loss = Q2Qc 250 → loss (results_of x) = Q2Qc 2.5).
Proof.
  intros Hlen Ho. cbv zeta. rewrite process_batches_spec by done.
  unfold result_of. simpl. rewrite bool_decide_eq_false_2 by done.
  eexists. split; [done|]. split.
  - by destruct is_training.
  - intros -> ->. destruct is_training; simpl; by apply Qc_is_canon.
Qed.

(** C3.  The metrics of a pass that returns are those of the metric
    library on the true labels of all batches, in order, and the labels
    predicted for all batches, in order: accuracy, macro precision, macro
    recall and macro F1 are each computed over the whole lists.  The mean
    of per-batch F1 scores is a different quantity. *)
Theorem process_batches_metrics dataset batch_size num_workers is_training (w : world) x :
  result_of (process_batches dataset batch_size num_workers is_training w) = Ok x →
  let batches := DataLoader dataset batch_size num_workers in
  let actual := targets_of batches in
  let predicted := predictions_of (pass_models is_training w batches) batches in
  (accuracy (results_of x) = sklearn.accuracy_score actual predicted ∧
   precision (results_of x) = sklearn.precision_score actual predicted ∧
   recall (results_of x) = sklearn.recall_score actual predicted ∧
   f1 (results_of x) = sklearn.f1_score actual predicted) ∧
  sklearn.f1_score ([0; 0] ++ [1; 1]) ([0; 0] ++ [0; 1]) ≠
  mean [sklearn.f1_score [0; 0] [0; 0]; sklearn.f1_score [1; 1] [0; 1]].
Proof.
  intros Hx. cbv zeta. split; [|apply f1_score_not_batch_mean].
  destruct (process_batches_ok _ _ _ _ _ _ Hx) as (_ & -> & _). done.
Qed.

(** C6.  The confusion matrix of a pass that returns has two rows of two
    entries; entry [i, j] counts the samples of true label [i] predicted
    [j], for [i] and [j] in the fixed order 0, 1.  When no true label is 1
    the row of label 1 is zero, and when no predicted label is 1 the column
    of label 1 is zero. *)
Theorem process_batches_confusion_matrix dataset batch_size num_workers is_training
    (w : world) x :
  result_of (process_batches dataset batch_size num_workers is_training w) = Ok x →
  let batches := DataLoader dataset batch_size num_workers in
  let actual := targets_of batches in
  let predicted := predictions_of (pass_models is_training w batches) batches in
  length (cm_of x) = 2%nat ∧
  Forall (λ row, length row = 2%nat) (cm_of x) ∧
  cm_of x =
    [[sklearn.count_pairs 0 0 actual predicted; sklearn.count_pairs 0 1 actual predicted];
     [sklearn.count_pairs 1 0 actual predicted; sklearn.count_pairs 1 1 actual predicted]] ∧
  (1 ∉ actual → cm_of x !! 1%nat = Some [0; 0]%nat) ∧
  (1 ∉ predicted → Forall (λ row, row !! 1%nat = Some 0%nat) (cm_of x)).
Proof.
  intros Hx. cbv zeta.
  destruct (process_batches_ok _ _ _ _ _ _ Hx) as (_ & _ & ->).
  rewrite confusion_matrix_01. split; [done|]. split; [by repeat constructor|].
  split; [done|]. split.
  - intros Habs. simpl. by rewrite !count_pairs_absent_true.
  - intros Habs. rewrite !(count_pairs_absent_pred _ 1) by done. by repeat constructor.
Qed.

(** C7.  A pass with [is_training] false calls neither
    [optimizer.zero_grad], nor [backward], nor [optimizer.step] (it emits
    no event at all), leaves the model, the optimizer and the list objects
    as they were, and when it returns, returns the pair of the results and
    the confusion matrix.  A pass with [is_training] true that returns,
    returns the triple of the model as the pass left it, the results and
    the confusion matrix, after the three calls for each batch in turn.
    On a dataset of non-zero length either pass returns (the training
    pass given its optimizer). *)
Theorem process_batches_modes dataset batch_size num_workers (w : world) :
  (world_of (process_batches dataset batch_size num_workers false w) = w ∧
   events_of (process_batches dataset batch_size num_workers false w) = [] ∧
   (∀ x, result_of (process_batches dataset batch_size num_workers false w) = Ok x →
         x = Ret2 (results_of x) (cm_of x)) ∧
   (len dataset ≠ 0%nat →
    ∃ x, result_of (process_batches dataset batch_size num_workers false w) = Ok x)) ∧
  ((∀ x, result_of (process_batches dataset batch_size num_workers true w) = Ok x →
         x = Ret3 (w_model (world_of (process_batches dataset batch_size num_workers true w)))
               (results_of x) (cm_of x)) ∧
   (len dataset ≠ 0%nat → is_Some (w_optimizer w) →
    ∃ x, result_of (process_batches dataset batch_size num_workers true w) = Ok x) ∧
   (is_Some (w_optimizer w) →
    events_of (process_batches dataset batch_size num_workers true w) =
    training_events
      (pass_models true w (DataLoader dataset batch_size num_workers))
      (DataLoader dataset batch_size num_workers))).
Proof.
  split; [split; [|split; [|split]]|split; [|split]].
  - by rewrite process_batches_spec.
  - by rewrite process_batches_spec.
  - intros x Hx. by apply (process_batches_tuple _ _ _ false) in Hx.
  - intros Hlen. rewrite process_batches_spec by done. unfold result_of. simpl.
    rewrite bool_decide_eq_false_2 by done. by eexists.
  - intros x Hx. by apply (process_batches_tuple _ _ _ true) in Hx.
  - intros Hlen Ho. rewrite process_batches_spec by done. unfold result_of. simpl.
    rewrite bool_decide_eq_false_2 by done. by eexists.
  - intros Ho. by rewrite process_batches_spec.
Qed.

(** ** One epoch *)

(** The body of the epoch loop with its binds spelled out. *)
Lemma train_epoch_spec history trainset valset batch_size num_workers log_every
    checkpoint_dir epoch best (w : world) :
  train_epoch history trainset valset batch_size num_workers log_every checkpoint_dir
    epoch best w =
  match process_batches trainset batch_size num_workers true w with
  | (Raise x, w1, t1) => (Raise x, w1, t1)
  | (Ok (Ret2 _ _), w1, t1) => (Raise ValueError, w1, t1)
  | (Ok (Ret3 _ rt cmt), w1, t1) =>
      let report_t := EvReport Training cmt (accuracy rt) (precision rt) (recall rt) (f1 rt) in
      match process_batches valset batch_size num_workers false w1 with
      | (Raise x, w2, t2) => (Raise x, w2, t1 ++ report_t :: t2)
      | (Ok (Ret3 _ _ _), w2, t2) => (Raise ValueError, w2, t1 ++ report_t :: t2)
      | (Ok (Ret2 rv cmv), w2, t2) =>
          let report_v :=
            EvReport Validation cmv (accuracy rv) (precision rv) (recall rv) (f1 rv) in
          match (update_history history "train_" (items rt);;
                 update_history history "val_" (items rv)) w2 with
          | (Raise x, w3, t3) => (Raise x, w3, t1 ++ report_t :: t2 ++ report_v :: t3)
          | (Ok _, w3, t3) =>
              (Ok (if py_gt (f1 rv) best then f1 rv else best), w3,
               t1 ++ report_t :: t2 ++ report_v :: t3 ++
               (if py_gt (f1 rv) best then best_events history checkpoint_dir epoch w3
                else []) ++
               (if is_log_epoch log_every epoch
                then periodic_events history checkpoint_dir epoch w3 else []))
          end
      end
  end.
Proof.
  unfold train_epoch, mbind, M_bind, bind.
  destruct (process_batches trainset _ _ true w) as [[[[m rt cmt|rt cmt]|x] w1] t1];
    [|unfold raise; by rewrite ?app_nil_r..].
  unfold report at 1, emit at 1. cbv beta iota zeta.
  destruct (process_batches valset _ _ false w1) as [[[[m' rv cmv|rv cmv]|x] w2] t2];
    [unfold raise; by rewrite ?app_nil_r| |done].
  unfold report at 1, emit at 1. cbv beta iota zeta.
  destruct (update_history history "train_" (items rt) w2) as [[[[]|x] w3] t3];
    [|by rewrite <- ?app_assoc].
  destruct (update_history history "val_" (items rv) w3) as [[[[]|x] w4] t4];
    [|by rewrite <- ?app_assoc].
  unfold is_log_epoch, best_events, periodic_events, save_checkpoint, generate_plots, emit, ret.
  destruct (py_gt (f1 rv) best); do 2 case_bool_decide; simpl;
    rewrite <- ?app_assoc; simpl; rewrite ?app_nil_r; done.
Qed.

(** A pass neither reports, nor saves, nor plots, and it leaves the list
    objects alone. *)
Lemma training_events_quiet ms batches :
  saves (training_events ms batches) = [] ∧
  validation_f1s (training_events ms batches) = [] ∧
  plots (training_events ms batches) = [].
Proof.
  unfold training_events. revert batches.
  induction ms as [|m ms IH]; intros [|b batches]; simpl; done.
Qed.

Lemma process_batches_quiet dataset batch_size num_workers is_training (w : world) :
  saves (events_of (process_batches dataset batch_size num_workers is_training w)) = [] ∧
  validation_f1s (events_of (process_batches dataset batch_size num_workers is_training w)) = [] ∧
  plots (events_of (process_batches dataset batch_size num_workers is_training w)) = [] ∧
  w_heap (world_of (process_batches dataset batch_size num_workers is_training w)) = w_heap w.
Proof.
  destruct (decide (is_training = true → is_Some (w_optimizer w))) as [Ho|Ho].
  - rewrite process_batches_spec by done. unfold events_of, world_of. simpl.
    unfold pass_events, pass_world. destruct is_training; [|done].
    destruct (training_events_quiet
      (pass_models true w (DataLoader dataset batch_size num_workers))
      (DataLoader dataset batch_size num_workers)) as (-> & -> & ->).
    by destruct (w_optimizer w).
  - destruct is_training; [|by destruct Ho].
    destruct (w_optimizer w) as [o|] eqn:Ew; [by destruct Ho|].
    destruct (DataLoader dataset batch_size num_workers) as [|b batches] eqn:Hb.
    + by rewrite process_batches_no_batch.
    + by rewrite process_batches_no_optimizer by (done || by rewrite Hb).
Qed.

(** Appending to the history emits nothing and touches neither the model
    nor the optimizer. *)
Lemma update_history_quiet history prefix its : ∀ (w : world),
  events_of (update_history history prefix its w) = [] ∧
  w_model (world_of (update_history history prefix its w)) = w_model w ∧
  w_optimizer (world_of (update_history history prefix its w)) = w_optimizer w.
Proof.
  induction its as [|[name val] its IH]; intros w; [done|].
  rewrite update_history_cons. unfold mbind, M_bind, bind, history_append.
  destruct (history !! (prefix +:+ name)) as [l|]; [|done].
  specialize (IH (World (w_model w) (w_optimizer w) (<[l:=w_heap w l ++ [val]]> (w_heap w)))).
  destruct (update_history history prefix its _) as [[r w'] t].
  unfold events_of, world_of in *. simpl in *. destruct IH as (-> & -> & ->). done.
Qed.

(** An epoch that completes reports one validation F1 [f], moves the best
    score to [f] when [f] exceeds it, and saves what lines 125-137 say. *)
Lemma train_epoch_ok history trainset valset batch_size num_workers log_every
    checkpoint_dir epoch best (w w' : world) best' evs :
  train_epoch history trainset valset batch_size num_workers log_every checkpoint_dir
    epoch best w = (Ok best', w', evs) →
  ∃ f, validation_f1s evs = [f] ∧
    best' = (if py_gt f best then f else best) ∧
    saves evs =
      (if py_gt f best then [(epoch, os_path_join checkpoint_dir "best_checkpoint")] else []) ++
      (if is_log_epoch log_every epoch
       then [(epoch, os_path_join checkpoint_dir ("checkpoint_epoch_" +:+ str_of_int epoch))]
       else []) ∧
    plots evs = (if is_log_epoch log_every epoch then [checkpoint_dir] else []).
Proof.
  rewrite train_epoch_spec.
  pose proof (process_batches_quiet trainset batch_size num_workers true w) as Qt.
  destruct (process_batches trainset _ _ true w) as [[[[m rt cmt|rt cmt]|x] w1] t1]; try done.
  pose proof (process_batches_quiet valset batch_size num_workers false w1) as Qv.
  destruct (process_batches valset _ _ false w1) as [[[[m' rv cmv|rv cmv]|x] w2] t2]; try done.
  cbv zeta.
  pose proof (update_history_quiet history "train_" (items rt) w2) as Q1.
  unfold mbind, M_bind, bind.
  destruct (update_history history "train_" (items rt) w2) as [[[[]|x] w3] t3]; [|done].
  pose proof (update_history_quiet history "val_" (items rv) w3) as Q2.
  destruct (update_history history "val_" (items rv) w3) as [[[[]|x] w4] t4]; [|done].
  unfold events_of, world_of in *. simpl in Qt, Qv, Q1, Q2.
  destruct Qt as (St & Vt & Pt & _), Qv as (Sv & Vv & Pv & _), Q1 as (-> & _), Q2 as (-> & _).
  intros [= <- <- <-]. exists (f1 rv).
  unfold saves, validation_f1s, plots in *.
  rewrite !omap_app, St, Vt, Pt. simpl. rewrite !omap_app, Sv, Vv, Pv. simpl.
  rewrite !omap_app.
  by destruct (py_gt (f1 rv) best), (is_log_epoch log_every epoch).
Qed.

(** ** The loop over the epochs *)

Lemma epoch_loop_ok history trainset valset batch_size num_workers log_every
    checkpoint_dir epochs : ∀ best (w w' : world) best' evs,
  epoch_loop history trainset valset batch_size num_workers log_every checkpoint_dir
    epochs best w = (Ok best', w', evs) →
  length (validation_f1s evs) = length epochs ∧
  best_saves checkpoint_dir evs = record_epochs best (zip epochs (validation_f1s evs)) ∧
  epoch_saves checkpoint_dir evs =
    (λ e, (e, os_path_join checkpoint_dir ("checkpoint_epoch_" +:+ str_of_int e))) <$>
      filter (λ e, is_log_epoch log_every e = true) epochs ∧
  plots evs =
    replicate (length (filter (λ e, is_log_epoch log_every e = true) epochs)) checkpoint_dir.
Proof.
  induction epochs as [|epoch epochs IH]; intros best w w' best' evs Hrun.
  - injection Hrun as <- <- <-. done.
  - rewrite epoch_loop_cons in Hrun.
    apply bind_inv in Hrun as [(x & ? & _)|(b1 & w1 & t1 & t2 & H1 & H2 & ->)]; [done|].
    apply train_epoch_ok in H1 as (f & Hf & -> & Hs & Hp).
    apply IH in H2 as (Hlen & Hbest & Hper & Hplots).
    unfold best_saves, epoch_saves, saves, validation_f1s, plots in *.
    rewrite !omap_app, Hf, Hs, Hp, !filter_app, !fmap_app, Hbest, Hper, Hplots. simpl.
    rewrite Hlen. split; [done|].
    rewrite filter_cons.
    destruct (py_gt f best), (is_log_epoch log_every epoch); simpl;
      rewrite ?filter_cons, ?filter_nil; simpl;
      rewrite ?(decide_True (P:=_ = _)) by done;
      rewrite ?(decide_False (P:=_ ≠ _)) by (intros Hne; by apply Hne);
      rewrite ?(decide_False (P:=_ = _)) by apply epoch_file_not_best;
      rewrite ?(decide_True (P:=_ ≠ _)) by apply epoch_file_not_best;
      done.
Qed.

(** ** [train] *)

(** A run of [train] that returns is a run of the epoch loop that
    returns, followed by the reading of the model. *)
Lemma train_ok history trainset valset config (w : world) m :
  result_of (train history trainset valset config w) = Ok m →
  ∃ best',
    epoch_loop history trainset valset (default 20%nat (batch_size config))
      (default 4%nat (num_workers config)) (log_every_of config)
      (checkpoint_dir_of config) (epochs_of config) 0%Qc w =
    (Ok best', world_of (train history trainset valset config w),
     events_of (train history trainset valset config w)) ∧
    m = w_model (world_of (train history trainset valset config w)).
Proof.
  rewrite train_unfold. unfold result_of, world_of, events_of.
  destruct ((_ ;; get_model) w) as [[r w'] evs] eqn:Hrun. simpl. intros ->.
  apply bind_inv in Hrun as [(x & ? & _)|(b1 & w1 & t1 & t2 & H1 & H2 & ->)]; [done|].
  injection H2 as <- <- <-. rewrite app_nil_r. by exists b1.
Qed.

(** C2.  In a run of [train] that returns, one validation F1 is reported
    per epoch, and the best checkpoint is saved at exactly the epochs whose
    validation F1 is greater than 0 and than the validation F1 of every
    earlier epoch of the run: the running maximum, started at 0.  For the
    scores 0.3, 0.5, 0.4, 0.6 from epoch 1 on, these are the epochs 1, 2
    and 4. *)
Theorem train_best_checkpoint history trainset valset config (w : world) m :
  result_of (train history trainset valset config w) = Ok m →
  let evs := events_of (train history trainset valset config w) in
  let epochs := epochs_of config in
  let scores := validation_f1s evs in
  let saved := best_saves (checkpoint_dir_of config) evs in
  length scores = length epochs ∧
  saved = record_epochs 0%Qc (zip epochs scores) ∧
  (∀ i epoch f, epochs !! i = Some epoch → scores !! i = Some f →
     epoch ∈ saved ↔ Forall (λ g, (g < f)%Qc) (0%Qc :: take i scores)) ∧
  (default 1 (start_epoch config) = 1 →
   scores = [Q2Qc 0.3; Q2Qc 0.5; Q2Qc 0.4; Q2Qc 0.6] →
   saved = [1; 2; 4]).
Proof.
  intros Hrun. cbv zeta.
  apply train_ok in Hrun as (best' & Hloop & _).
  apply epoch_loop_ok in Hloop as (Hlen & Hbest & _ & _).
  split; [done|]. split; [done|]. split.
  - intros i epoch f Hi Hf. rewrite Hbest.
    rewrite (record_epochs_elem _ 0%Qc i epoch f).
    + by rewrite snd_zip by lia.
    + rewrite fst_zip by lia. apply NoDup_seqZ.
    + by apply lookup_zip_Some.
  - intros Hstart Hscores. rewrite Hbest. revert Hlen.
    unfold epochs_of. rewrite Hstart, Hscores, length_seqZ. simpl.
    intros Hlen.
    replace (default 20 (num_epochs config) + 1 - 1) with 4 by lia.
    reflexivity.
Qed.

(** ** The logging interval does not reach into the rest of a run *)









(** ** The history *)

Lemma update_history_heap history prefix its : ∀ (w w' : world) t,
  update_history history prefix its w = (Ok tt, w', t) →
  ∀ l, w_heap w' l = w_heap w l ++ appended_to history prefix its l.
Proof.
  induction its as [|[name val] its IH]; intros w w' t Hrun l.
  - injection Hrun as <- <-. unfold appended_to. simpl. by rewrite app_nil_r.
  - rewrite update_history_cons in Hrun.
    apply bind_inv in Hrun as [(x & ? & _)|([] & w1 & t1 & t2 & H1 & H2 & ->)]; [done|].
    unfold history_append in H1. unfold appended_to. rewrite filter_cons. simpl.
    destruct (history !! (prefix +:+ name)) as [l0|] eqn:Hkey; [|done].
    injection H1 as <- <-.
    rewrite (IH _ _ _ H2 l). simpl. unfold appended_to.
    destruct (decide (Some l0 = Some l)) as [[= ->]|Hne].
    + rewrite fn_lookup_insert. simpl. by rewrite <- app_assoc.
    + rewrite fn_lookup_insert_ne by congruence. done.
Qed.

(** The loop raises [KeyError] at the first key that is not there, and
    returns when there is none. *)
Lemma update_history_result history prefix its : ∀ (w : world),
  result_of (update_history history prefix its w) =
  match first_missing history (String.append prefix <$> its.*1) with
  | Some k => Raise (KeyError k)
  | None => Ok tt
  end.
Proof.
  unfold first_missing.
  induction its as [|[name val] its IH]; intros w; [done|].
  rewrite update_history_cons. unfold mbind, M_bind, bind, history_append.
  cbn [fmap list_fmap fst list_find].
  destruct (history !! (prefix +:+ name)) as [l0|] eqn:Hkey.
  - rewrite decide_False by done.
    specialize (IH (World (w_model w) (w_optimizer w)
                      (<[l0:=w_heap w l0 ++ [val]]> (w_heap w)))).
    destruct (update_history history prefix its _) as [[r w'] t].
    unfold result_of in *. cbn [fst] in *. rewrite IH.
    by destruct (list_find _ _) as [[i k]|].
  - by rewrite decide_True by done.
Qed.

(** Lines 118-122: the two loops raise at the first of the ten keys that
    is missing, and return when none is. *)
Lemma history_updates_result history rt rv (w : world) :
  ∃ w',
    (update_history history "train_" (items rt);;
     update_history history "val_" (items rv)) w =
    (match first_missing history history_keys with
     | Some k => Raise (KeyError k)
     | None => Ok tt
     end, w', []) ∧
    w_optimizer w' = w_optimizer w.
Proof.
  pose proof (update_history_result history "train_" (items rt) w) as R1.
  pose proof (update_history_quiet history "train_" (items rt) w) as (Q1 & _ & O1).
  destruct (update_history history "train_" (items rt) w) as [[r1 w1] t1] eqn:H1.
  unfold result_of, events_of, world_of in R1, Q1, O1. cbn [fst snd] in R1, Q1, O1.
  subst r1 t1.
  rewrite (history_keys_items rt). unfold first_missing in *.
  destruct (list_find (λ k, history !! k = None) (String.append "train_" <$> (items rt).*1))
    as [[i k]|] eqn:F1.
  - exists w1. rewrite (list_find_app_l _ _ _ _ _ F1). cbn [fmap option_fmap option_map snd].
    cbn [fmap option_fmap option_map snd] in H1.
    split; [|done]. by rewrite (bind_raise _ _ _ _ _ _ H1).
  - cbn [fmap option_fmap option_map] in H1.
    pose proof (update_history_result history "val_" (items rv) w1) as R2.
    pose proof (update_history_quiet history "val_" (items rv) w1) as (Q2 & _ & O2).
    destruct (update_history history "val_" (items rv) w1) as [[r2 w2] t2] eqn:H2.
    unfold result_of, events_of, world_of in R2, Q2, O2. cbn [fst snd] in R2, Q2, O2.
    subst r2 t2. exists w2.
    rewrite (bind_ok _ _ _ _ _ _ _ _ _ H1 H2), (list_find_app_r _ _ _ F1).
    split; [|congruence]. simpl app. f_equal. f_equal.
    change ((items rt).*1) with ((items rv).*1). unfold first_missing.
    by destruct (list_find _ (String.append "val_" <$> (items rv).*1)) as [[j k]|].
Qed.

(** What [first_missing] says. *)
Lemma first_missing_None (history : gmap string nat) keys :
  first_missing history keys = None ↔ ∀ k, k ∈ keys → is_Some (history !! k).
Proof.
  unfold first_missing. rewrite fmap_None, list_find_None, Forall_forall.
  split; intros H k Hk.
  - apply not_eq_None_Some. by apply H.
  - apply not_eq_None_Some. by apply H.
Qed.

Lemma first_missing_Some (history : gmap string nat) keys k :
  first_missing history keys = Some k ↔
  ∃ i, keys !! i = Some k ∧ history !! k = None ∧
    ∀ j k', keys !! j = Some k' → (j < i)%nat → is_Some (history !! k').
Proof.
  unfold first_missing. rewrite fmap_Some. split.
  - intros ([i k'] & (Hi & Hnone & Hmin)%list_find_Some & ->).
    exists i. split_and!; [done..|]. intros j k'' Hj Hlt.
    apply not_eq_None_Some. by eapply Hmin.
  - intros (i & Hi & Hnone & Hmin). exists (i, k). split; [|done].
    apply list_find_Some. split_and!; [done..|]. intros j k' Hj Hlt.
    apply not_eq_None_Some. by eapply Hmin.
Qed.

(** An epoch that completes appends to each list what lines 118-122
    say. *)
Lemma train_epoch_heap history trainset valset batch_size num_workers log_every
    checkpoint_dir epoch best (w w' : world) best' evs :
  train_epoch history trainset valset batch_size num_workers log_every checkpoint_dir
    epoch best w = (Ok best', w', evs) →
  ∃ rt rv, ∀ l,
    w_heap w' l = w_heap w l ++ appended_to history "train_" (items rt) l ++
                  appended_to history "val_" (items rv) l.
Proof.
  rewrite train_epoch_spec.
  pose proof (process_batches_quiet trainset batch_size num_workers true w) as (_ & _ & _ & Ht).
  destruct (process_batches trainset _ _ true w) as [[[[m rt cmt|rt cmt]|x] w1] t1]; try done.
  pose proof (process_batches_quiet valset batch_size num_workers false w1) as (_ & _ & _ & Hv).
  destruct (process_batches valset _ _ false w1) as [[[[m' rv cmv|rv cmv]|x] w2] t2]; try done.
  cbv zeta. unfold world_of in *. simpl in Ht, Hv.
  destruct ((update_history history "train_" (items rt);;
            update_history history "val_" (items rv)) w2)
    as [[[[]|x] w3] t3] eqn:Hupd; [|done].
  intros [= <- <- <-]. exists rt, rv. intros l.
  apply bind_inv in Hupd as [(x & ? & _)|([] & w4 & t4 & t5 & H1 & H2 & ->)]; [done|].
  rewrite (update_history_heap _ _ _ _ _ _ H2 l), (update_history_heap _ _ _ _ _ _ H1 l).
  by rewrite Hv, Ht, <- app_assoc.
Qed.

Lemma epoch_loop_heap history trainset valset batch_size num_workers log_every
    checkpoint_dir epochs : ∀ best (w w' : world) best' evs,
  epoch_loop history trainset valset batch_size num_workers log_every checkpoint_dir
    epochs best w = (Ok best', w', evs) →
  ∀ l, ∃ vs, w_heap w' l = w_heap w l ++ vs ∧
    length vs = (length epochs *
                 length (filter (λ k, history !! k = Some l) history_keys))%nat.
Proof.
  induction epochs as [|epoch epochs IH]; intros best w w' best' evs Hrun l.
  - injection Hrun as <- <- <-. exists []. by rewrite app_nil_r.
  - rewrite epoch_loop_cons in Hrun.
    apply bind_inv in Hrun as [(x & ? & _)|(b1 & w1 & t1 & t2 & H1 & H2 & ->)]; [done|].
    apply train_epoch_heap in H1 as (rt & rv & Hheap).
    destruct (IH _ _ _ _ _ H2 l) as (vs & Hvs & Hlen).
    eexists. rewrite Hvs, Hheap, <- app_assoc. split; [done|].
    rewrite length_app, (appended_count history rt rv l), Hlen. simpl. lia.
Qed.

(** The first epoch with a key missing. *)
Lemma train_epoch_missing_key history trainset valset batch_size num_workers log_every
    checkpoint_dir epoch best (w : world) k :
  first_missing history history_keys = Some k →
  len trainset ≠ 0%nat → len valset ≠ 0%nat → is_Some (w_optimizer w) →
  ∃ w' evs,
    train_epoch history trainset valset batch_size num_workers log_every checkpoint_dir
      epoch best w = (Raise (KeyError k), w', evs) ∧
    saves evs = [].
Proof.
  intros Hmiss Hts Hvs Ho. rewrite train_epoch_spec.
  pose proof (process_batches_quiet trainset batch_size num_workers true w) as (St & _).
  rewrite (process_batches_spec trainset) in * by done.
  rewrite bool_decide_eq_false_2 in * by done. cbv zeta iota beta.
  set (w1 := pass_world true w _) in *.
  pose proof (process_batches_quiet valset batch_size num_workers false w1) as (Sv & _).
  rewrite (process_batches_spec valset) in * by done.
  rewrite bool_decide_eq_false_2 in * by done. cbv zeta iota beta.
  unfold events_of in St, Sv. cbn [snd] in St, Sv.
  match goal with
  | |- context [(update_history history "train_" (items ?rt);;
                 update_history history "val_" (items ?rv)) ?w2] =>
      destruct (history_updates_result history rt rv w2) as (w' & -> & _)
  end.
  rewrite Hmiss. eexists w', _. split; [done|].
  unfold saves in *. rewrite !omap_app, St. simpl. by rewrite ?omap_app, ?Sv.
Qed.

Lemma train_epoch_returns history trainset valset batch_size num_workers log_every
    checkpoint_dir epoch best (w : world) :
  (∀ k, k ∈ history_keys → is_Some (history !! k)) →
  len trainset ≠ 0%nat → len valset ≠ 0%nat → is_Some (w_optimizer w) →
  ∃ best' w' evs,
    train_epoch history trainset valset batch_size num_workers log_every checkpoint_dir
      epoch best w = (Ok best', w', evs) ∧
    is_Some (w_optimizer w').
Proof.
  intros Hall Hts Hvs Ho. rewrite train_epoch_spec.
  rewrite (process_batches_spec trainset) by done.
  rewrite bool_decide_eq_false_2 by done. cbv zeta iota beta.
  assert (is_Some (w_optimizer
            (pass_world true w (DataLoader trainset batch_size num_workers)))) as Ho1.
  { unfold pass_world. destruct Ho as [o ->]. by eexists. }
  set (w1 := pass_world true w _) in *.
  rewrite (process_batches_spec valset) by done.
  rewrite bool_decide_eq_false_2 by done. cbv zeta iota beta.
  match goal with
  | |- context [(update_history history "train_" (items ?rt);;
                 update_history history "val_" (items ?rv)) ?w2] =>
      destruct (history_updates_result history rt rv w2) as (w' & -> & Hopt)
  end.
  rewrite (proj2 (first_missing_None history history_keys) Hall).
  eexists _, w', _. split; [done|]. by rewrite Hopt.
Qed.

Lemma epoch_loop_returns history trainset valset batch_size num_workers log_every
    checkpoint_dir epochs : ∀ best (w : world),
  (∀ k, k ∈ history_keys → is_Some (history !! k)) →
  len trainset ≠ 0%nat → len valset ≠ 0%nat → is_Some (w_optimizer w) →
  ∃ best' w' evs,
    epoch_loop history trainset valset batch_size num_workers log_every checkpoint_dir
      epochs best w = (Ok best', w', evs).
Proof.
  induction epochs as [|epoch epochs IH]; intros best w Hall Hts Hvs Ho.
  - by eexists _, _, _.
  - rewrite epoch_loop_cons.
    destruct (train_epoch_returns history trainset valset batch_size num_workers log_every
                checkpoint_dir epoch best w Hall Hts Hvs Ho) as (b1 & w1 & t1 & H1 & Ho1).
    destruct (IH b1 w1 Hall Hts Hvs Ho1) as (b2 & w2 & t2 & H2).
    eexists _, _, _. by apply (bind_ok _ _ _ _ _ _ _ _ _ H1 H2).
Qed.

(** C10.  A run of [train] that returns has appended to every list
    object, in each epoch it processed, one value for each of the ten keys
    bound to that list: a list bound to one of the ten keys only has grown
    by exactly as many values as there were epochs.  With non-empty
    datasets and an optimizer, the run returns when the history has the ten
    keys; otherwise, when there is an epoch to process, it ends in the
    first epoch with the [KeyError] of the first key, in the order of the
    appends, that is missing, before any checkpoint is saved. *)
Theorem train_history history trainset valset config (w : world) :
  history_keys =
    ["train_loss"; "train_accuracy"; "train_precision"; "train_recall"; "train_f1";
     "val_loss"; "val_accuracy"; "val_precision"; "val_recall"; "val_f1"] ∧
  (∀ m, result_of (train history trainset valset config w) = Ok m →
     ∀ l, ∃ vs,
       w_heap (world_of (train history trainset valset config w)) l = w_heap w l ++ vs ∧
       length vs = (length (epochs_of config) *
                    length (filter (λ k, history !! k = Some l) history_keys))%nat ∧
       ∀ k, k ∈ history_keys → history !! k = Some l →
            (∀ k', k' ∈ history_keys → history !! k' = Some l → k' = k) →
            length vs = length (epochs_of config)) ∧
  (len trainset ≠ 0%nat → len valset ≠ 0%nat → is_Some (w_optimizer w) →
   ((∀ k, k ∈ history_keys → is_Some (history !! k)) →
    ∃ m, result_of (train history trainset valset config w) = Ok m) ∧
   (∀ i k, history_keys !! i = Some k → history !! k = None →
      (∀ j k', history_keys !! j = Some k' → (j < i)%nat → is_Some (history !! k')) →
      epochs_of config ≠ [] →
      result_of (train history trainset valset config w) = Raise (KeyError k) ∧
      saves (events_of (train history trainset valset config w)) = [])).
Proof.
  split; [reflexivity|]. split.
  - intros m Hrun l.
    apply train_ok in Hrun as (best' & Hloop & _).
    destruct (epoch_loop_heap _ _ _ _ _ _ _ _ _ _ _ _ _ Hloop l) as (vs & Hvs & Hlen).
    exists vs. split_and!; [done..|].
    intros k Hk Hl Honly. rewrite Hlen, (bound_once history k l) by done. lia.
  - intros Hts Hvs Ho. split.
    + intros Hall. rewrite train_unfold.
      destruct (epoch_loop_returns history trainset valset
                  (default 20%nat (batch_size config)) (default 4%nat (num_workers config))
                  (log_every_of config) (checkpoint_dir_of config) (epochs_of config)
                  0%Qc w Hall Hts Hvs Ho) as (b & w' & evs & Hloop).
      exists (w_model w').
      by rewrite (bind_ok _ _ _ _ _ _ _ _ _ Hloop eq_refl).
    + intros i k Hi Hnone Hmin Hepochs. rewrite train_unfold.
      assert (first_missing history history_keys = Some k) as Hmiss.
      { apply first_missing_Some. by exists i. }
      destruct (epochs_of config) as [|epoch epochs]; [done|].
      destruct (train_epoch_missing_key history trainset valset
                  (default 20%nat (batch_size config)) (default 4%nat (num_workers config))
                  (log_every_of config) (checkpoint_dir_of config) epoch 0%Qc w k
                  Hmiss Hts Hvs Ho) as (w' & evs & Hep & Hsaves).
      split.
      * erewrite bind_raise; [done|]. rewrite epoch_loop_cons. by erewrite bind_raise.
      * erewrite bind_raise; [done|]. rewrite epoch_loop_cons. by erewrite bind_raise.
Qed.

(** ** Further properties of a pass *)

Local Abbreviation evaluate :=
  (evaluate apply_model argmax loss_fn torch_sum float_of zero_grad backward step
     len shuffled).
Local Abbreviation checkpoints := (@checkpoints Model Optimizer Loss).

(** X1.  On a dataset of non-zero length [evaluate] returns the results
    and the confusion matrix of an evaluation pass, whether or not the
    caller holds an optimizer; it leaves the model, the optimizer and the
    list objects as they were, and writes one report, of the confusion
    matrix and of accuracy, precision, recall and F1 (the loss is returned
    but not reported). *)
Theorem evaluate_returns dataset batch_size num_workers (w : world) :
  len dataset ≠ 0%nat →
  ∃ r cm,
    evaluate dataset batch_size num_workers w =
      (Ok (r, cm), w,
       [EvPrintReport cm (accuracy r) (precision r) (recall r) (f1 r)]) ∧
    result_of (process_batches dataset (default 64%nat batch_size)
                 (default 4%nat num_workers) false w) = Ok (Ret2 r cm).
Proof.
  intros Hlen. unfold evaluate.
  rewrite !process_batches_spec by done.
  rewrite !bool_decide_eq_false_2 by done. unfold result_of. simpl.
  eexists _, _. split; [|reflexivity]. by destruct w.
Qed.

(** X2.  On a dataset of length 0 [evaluate] ends with the [ValueError]
    that the constructor call of lines 212-214 raises in its pass: it
    returns nothing, reports nothing and changes nothing. *)
Theorem evaluate_empty_dataset dataset batch_size num_workers (w : world) :
  len dataset = 0%nat →
  evaluate dataset batch_size num_workers w = (Raise ValueError, w, []).
Proof.
  intros Hlen. unfold evaluate.
  rewrite process_batches_empty by done. simpl. by destruct w.
Qed.

(** X3.  A training pass without optimizer ([optimizer=None], the default
    of [process_batches]) over at least one batch ends at line 237 of the
    first batch with [AttributeError], before any weight is written; an
    evaluation pass in the same world returns all the same. *)
Theorem process_batches_missing_optimizer dataset batch_size num_workers (w : world) :
  w_optimizer w = None →
  DataLoader dataset batch_size num_workers ≠ [] →
  process_batches dataset batch_size num_workers true w = (Raise AttributeError, w, []) ∧
  (len dataset ≠ 0%nat →
   ∃ x, process_batches dataset batch_size num_workers false w = (Ok x, w, [])).
Proof.
  intros Ho Hb. split; [by apply process_batches_no_optimizer|].
  intros Hlen. rewrite process_batches_spec by done.
  rewrite bool_decide_eq_false_2 by done. by eexists.
Qed.

(** ** Further properties of [train] *)

(** X4.  When [start_epoch] is greater than [num_epochs] there is no epoch
    to process: [train] returns the model as it is at once, writes
    nothing and changes nothing, whatever the history and the datasets
    are. *)
Theorem train_no_epoch history trainset valset config (w : world) :
  default 20 (num_epochs config) < default 1 (start_epoch config) →
  train history trainset valset config w = (Ok (w_model w), w, []).
Proof.
  intros Hlt. rewrite train_unfold. unfold epochs_of.
  rewrite seqZ_nil by lia. reflexivity.
Qed.

(** X5.  With an epoch to process, an optimizer, and a training or a
    validation set of length 0, [train] ends in the first epoch with the
    [ValueError] that the constructor call of lines 212-214 raises in the
    pass over that set: nothing is appended to the history, no checkpoint
    is saved and nothing is plotted.  When it is the validation set that
    is empty, the training pass of the epoch has been made. *)
Theorem train_empty_dataset history trainset valset config (w : world) :
  epochs_of config ≠ [] →
  is_Some (w_optimizer w) →
  len trainset = 0%nat ∨ len valset = 0%nat →
  result_of (train history trainset valset config w) = Raise ValueError ∧
  w_heap (world_of (train history trainset valset config w)) = w_heap w ∧
  saves (events_of (train history trainset valset config w)) = [] ∧
  plots (events_of (train history trainset valset config w)) = [] ∧
  validation_f1s (events_of (train history trainset valset config w)) = [] ∧
  (len trainset ≠ 0%nat →
   w_model (world_of (train history trainset valset config w)) =
   w_model (pass_world true w
              (DataLoader trainset (default 20%nat (batch_size config))
                 (default 4%nat (num_workers config))))).
Proof.
  intros Hepochs Ho Hempty. rewrite train_unfold.
  destruct (epochs_of config) as [|epoch epochs]; [done|].
  set (bs := default 20%nat (batch_size config)).
  set (nw := default 4%nat (num_workers config)).
  assert (∃ w' evs,
    train_epoch history trainset valset bs nw (log_every_of config)
      (checkpoint_dir_of config) epoch 0%Qc w = (Raise ValueError, w', evs) ∧
    w_heap w' = w_heap w ∧ saves evs = [] ∧ plots evs = [] ∧ validation_f1s evs = [] ∧
    (len trainset ≠ 0%nat → w_model w' = w_model (pass_world true w (DataLoader trainset bs nw))))
    as (w' & evs & Hep & Hheap & Hsaves & Hplots & Hval & Hmodel).
  { rewrite train_epoch_spec.
    pose proof (process_batches_quiet trainset bs nw true w) as (St & Vt & Pt & Ht).
    rewrite (process_batches_spec trainset) in * by done.
    unfold events_of, world_of in St, Vt, Pt, Ht. cbn [fst snd] in St, Vt, Pt, Ht.
    destruct (decide (len trainset = 0%nat)) as [Hts|Hts].
    - rewrite bool_decide_eq_true_2 by done. eexists _, _. split; [done|].
      by split_and!.
    - rewrite bool_decide_eq_false_2 by done. cbv zeta iota beta.
      destruct Hempty as [?|Hvs]; [done|].
      assert (is_Some (w_optimizer (pass_world true w (DataLoader trainset bs nw)))) as Ho1.
      { unfold pass_world. destruct Ho as [o ->]. by eexists. }
      set (w1 := pass_world true w _) in *.
      rewrite (process_batches_spec valset) by done.
      rewrite bool_decide_eq_true_2 by done.
      eexists _, _. split; [done|].
      unfold saves, plots, validation_f1s in *.
      by rewrite !omap_app, St, Pt, Vt. }
  erewrite bind_raise; [|rewrite epoch_loop_cons; by erewrite bind_raise].
  unfold result_of, world_of, events_of. cbn [fst snd]. by split_and!.
Qed.

(** X6.  With an epoch to process and a batch in the training set, [train]
    without optimizer ends at the first batch with [AttributeError]; the
    model and the history are untouched and nothing is written. *)
Theorem train_missing_optimizer history trainset valset config (w : world) :
  epochs_of config ≠ [] →
  w_optimizer w = None →
  DataLoader trainset (default 20%nat (batch_size config))
    (default 4%nat (num_workers config)) ≠ [] →
  train history trainset valset config w = (Raise AttributeError, w, []).
Proof.
  intros Hepochs Ho Hb. rewrite train_unfold.
  destruct (epochs_of config) as [|epoch epochs]; [done|].
  apply bind_raise. rewrite epoch_loop_cons. apply bind_raise.
  rewrite train_epoch_spec. by rewrite process_batches_no_optimizer.
Qed.

(** ** What the checkpoints hold *)

Lemma saves_checkpoints (tr : list event) :
  saves tr = (λ c, (ck_epoch c, ck_filepath c)) <$> checkpoints tr.
Proof.
  unfold saves, checkpoints.
  induction tr as [|[] tr IH]; [done|..]; simpl; try done; by f_equal.
Qed.

Lemma checkpoints_quiet (tr : list event) : saves tr = [] → checkpoints tr = [].
Proof. rewrite saves_checkpoints. apply fmap_nil_inv. Qed.

(** The checkpoints of lines 125-137 are taken in the world in which the
    epoch ends. *)
Lemma epoch_checkpoints_elem history checkpoint_dir epoch (w : world) (b1 b2 : bool) c :
  c ∈ checkpoints ((if b1 then best_events history checkpoint_dir epoch w else []) ++
                   (if b2 then periodic_events history checkpoint_dir epoch w else [])) →
  ck_model c = w_model w ∧ ck_optimizer c = w_optimizer w ∧
  ck_history c = snapshot history (w_heap w) ∧ ck_epoch c = epoch.
Proof.
  destruct b1, b2; simpl; rewrite ?elem_of_cons, elem_of_nil; intros H;
    repeat (destruct H as [->|H]; [done|]); done.
Qed.

(** The value appended last in an epoch is its validation F1. *)
Lemma appended_val_f1_last (history : gmap string nat) rv l :
  history !! "val_f1" = Some l →
  ∃ vs, appended_to history "val_" (items rv) l = vs ++ [f1 rv].
Proof.
  intros Hl. unfold appended_to.
  change (items rv) with
    ([("loss", loss rv); ("accuracy", accuracy rv); ("precision", precision rv);
      ("recall", recall rv)] ++ [("f1", f1 rv)]).
  rewrite filter_app, fmap_app, (filter_cons _ ("f1", f1 rv)), filter_nil.
  rewrite decide_True by done. by eexists.
Qed.

(** An epoch that completes: the score it reports, the lists it appends
    to, and the checkpoints it saves. *)
Lemma train_epoch_checkpoints history trainset valset batch_size num_workers log_every
    checkpoint_dir epoch best (w w' : world) best' evs :
  train_epoch history trainset valset batch_size num_workers log_every checkpoint_dir
    epoch best w = (Ok best', w', evs) →
  ∃ rt rv,
    validation_f1s evs = [f1 rv] ∧
    (∀ l, w_heap w' l = w_heap w l ++ appended_to history "train_" (items rt) l ++
                        appended_to history "val_" (items rv) l) ∧
    (∀ k, k ∈ history_keys → is_Some (history !! k)) ∧
    checkpoints evs =
      checkpoints ((if py_gt (f1 rv) best
                    then best_events history checkpoint_dir epoch w' else []) ++
                   (if is_log_epoch log_every epoch
                    then periodic_events history checkpoint_dir epoch w' else [])).
Proof.
  rewrite train_epoch_spec.
  pose proof (process_batches_quiet trainset batch_size num_workers true w) as Qt.
  destruct (process_batches trainset _ _ true w) as [[[[m rt cmt|rt cmt]|x] w1] t1]; try done.
  pose proof (process_batches_quiet valset batch_size num_workers false w1) as Qv.
  destruct (process_batches valset _ _ false w1) as [[[[m' rv cmv|rv cmv]|x] w2] t2]; try done.
  cbv zeta.
  destruct (history_updates_result history rt rv w2) as (w3 & Hupd & _).
  rewrite Hupd.
  destruct (first_missing history history_keys) as [k|] eqn:Hmiss; [done|].
  intros [= <- <- <-]. exists rt, rv.
  unfold events_of, world_of in Qt, Qv. cbn [fst snd] in Qt, Qv.
  destruct Qt as (St & Vt & _ & Ht), Qv as (Sv & Vv & _ & Hv).
  split_and!.
  - unfold validation_f1s in *. rewrite !omap_app, Vt. simpl. rewrite !omap_app, Vv. simpl.
    rewrite !omap_app. by destruct (py_gt (f1 rv) best), (is_log_epoch log_every epoch).
  - intros l.
    apply bind_inv in Hupd as [(x & ? & _)|([] & w4 & t4 & t5 & H1 & H2 & _)]; [done|].
    rewrite (update_history_heap _ _ _ _ _ _ H2 l), (update_history_heap _ _ _ _ _ _ H1 l).
    by rewrite Hv, Ht, <- app_assoc.
  - by apply first_missing_None.
  - apply checkpoints_quiet in St, Sv. unfold checkpoints in *.
    rewrite !omap_app, St. simpl. rewrite !omap_app, Sv. simpl. by rewrite !omap_app.
Qed.

(** Every checkpoint of the epochs of a run is taken at one of them, after
    the validation F1 of that epoch has been appended to the history; the
    checkpoints of the last epoch are taken in the final world. *)
Lemma epoch_loop_checkpoints history trainset valset batch_size num_workers log_every
    checkpoint_dir epochs : ∀ best (w w' : world) best' evs,
  epoch_loop history trainset valset batch_size num_workers log_every checkpoint_dir
    epochs best w = (Ok best', w', evs) →
  ∀ c, c ∈ checkpoints evs →
    ∃ i f vs, epochs !! i = Some (ck_epoch c) ∧ validation_f1s evs !! i = Some f ∧
      ck_history c !! "val_f1" = Some (vs ++ [f]) ∧
      (NoDup epochs → last epochs = Some (ck_epoch c) →
       ck_model c = w_model w' ∧ ck_optimizer c = w_optimizer w' ∧
       ck_history c = snapshot history (w_heap w')).
Proof.
  induction epochs as [|epoch epochs IH]; intros best w w' best' evs Hrun c Hc.
  - injection Hrun as <- <- <-. by apply elem_of_nil in Hc.
  - rewrite epoch_loop_cons in Hrun.
    apply bind_inv in Hrun as [(x & ? & _)|(b1 & w1 & t1 & t2 & H1 & H2 & ->)]; [done|].
    apply train_epoch_checkpoints in H1 as (rt & rv & Hf & Hheap & Hkeys & Hcks).
    unfold checkpoints in Hc. rewrite omap_app in Hc. fold (checkpoints t1) in Hc.
    fold (checkpoints t2) in Hc. unfold validation_f1s. rewrite omap_app.
    fold (validation_f1s t1). fold (validation_f1s t2). rewrite Hf.
    apply elem_of_app in Hc as [Hc|Hc].
    + rewrite Hcks in Hc. apply epoch_checkpoints_elem in Hc as (Hm & Ho & Hh & He).
      destruct (Hkeys "val_f1") as [l Hl]; [apply (bool_decide_unpack _); by vm_compute|].
      destruct (appended_val_f1_last history rv l Hl) as (vs & Hvs).
      exists 0%nat, (f1 rv). eexists. split_and!; [by rewrite He|done| |].
      * rewrite Hh. unfold snapshot. rewrite lookup_fmap, Hl. simpl.
        rewrite Hheap, Hvs, !app_assoc. done.
      * intros Hnd Hlast. rewrite He in Hlast.
        destruct epochs as [|e' epochs'].
        { injection H2 as <- <- <-. done. }
        exfalso. apply NoDup_cons in Hnd as [Hnot _]. apply Hnot.
        rewrite last_cons in Hlast.
        destruct (last (e' :: epochs')) as [e''|] eqn:Hl'; [|by apply last_None in Hl'].
        injection Hlast as ->. by apply last_Some_elem_of.
    + destruct (IH _ _ _ _ _ H2 c Hc) as (i & f & vs & Hi & Hfi & Hh & Hlast).
      exists (S i), f, vs. split_and!; [done..|].
      intros Hnd Hl. apply Hlast; [by apply NoDup_cons in Hnd as [_ ?]|].
      rewrite last_cons in Hl. destruct (last epochs) as [e'|] eqn:Hl'; [done|].
      apply last_None in Hl'. subst epochs. done.
Qed.

(** Checkpoints of one epoch hold the same objects. *)
Lemma epoch_loop_same_epoch history trainset valset batch_size num_workers log_every
    checkpoint_dir epochs : ∀ best (w w' : world) best' evs,
  epoch_loop history trainset valset batch_size num_workers log_every checkpoint_dir
    epochs best w = (Ok best', w', evs) →
  NoDup epochs →
  ∀ c c', c ∈ checkpoints evs → c' ∈ checkpoints evs → ck_epoch c = ck_epoch c' →
    ck_model c = ck_model c' ∧ ck_optimizer c = ck_optimizer c' ∧
    ck_history c = ck_history c'.
Proof.
  induction epochs as [|epoch epochs IH]; intros best w w' best' evs Hrun Hnd c c' Hc Hc' He.
  - injection Hrun as <- <- <-. by apply elem_of_nil in Hc.
  - rewrite epoch_loop_cons in Hrun.
    apply bind_inv in Hrun as [(x & ? & _)|(b1 & w1 & t1 & t2 & H1 & H2 & ->)]; [done|].
    apply NoDup_cons in Hnd as [Hnot Hnd].
    pose proof (epoch_loop_checkpoints _ _ _ _ _ _ _ _ _ _ _ _ _ H2) as Hrest.
    apply train_epoch_checkpoints in H1 as (rt & rv & _ & _ & _ & Hcks).
    unfold checkpoints in Hc, Hc'. rewrite omap_app in Hc, Hc'.
    fold (checkpoints t1) in Hc, Hc'. fold (checkpoints t2) in Hc, Hc'.
    rewrite Hcks in Hc, Hc'.
    apply elem_of_app in Hc as [Hc|Hc], Hc' as [Hc'|Hc'].
    + apply epoch_checkpoints_elem in Hc as (-> & -> & -> & _).
      by apply epoch_checkpoints_elem in Hc' as (-> & -> & -> & _).
    + apply epoch_checkpoints_elem in Hc as (_ & _ & _ & Hep).
      destruct (Hrest c' Hc') as (i & _ & _ & Hi & _).
      exfalso. apply Hnot. rewrite <- Hep, He. by eapply list_elem_of_lookup_2.
    + apply epoch_checkpoints_elem in Hc' as (_ & _ & _ & Hep).
      destruct (Hrest c Hc) as (i & _ & _ & Hi & _).
      exfalso. apply Hnot. rewrite <- Hep, <- He. by eapply list_elem_of_lookup_2.
    + by apply (IH _ _ _ _ _ H2 Hnd).
Qed.

(** X7.  In a run of [train] that returns, two checkpoints saved at the
    same epoch, the best one and the per-epoch one, hold the same model,
    the same optimizer and the same history. *)
Theorem train_checkpoints_same_epoch history trainset valset config (w : world) m c c' :
  result_of (train history trainset valset config w) = Ok m →
  c ∈ checkpoints (events_of (train history trainset valset config w)) →
  c' ∈ checkpoints (events_of (train history trainset valset config w)) →
  ck_epoch c = ck_epoch c' →
  ck_model c = ck_model c' ∧ ck_optimizer c = ck_optimizer c' ∧
  ck_history c = ck_history c'.
Proof.
  intros Hrun Hc Hc' He.
  apply train_ok in Hrun as (best' & Hloop & _).
  eapply epoch_loop_same_epoch; [exact Hloop|apply NoDup_seqZ|done..].
Qed.

(** X8.  In a run of [train] that returns, a checkpoint saved at the last
    epoch, [num_epochs], holds the model that [train] returns, and the
    optimizer and the history as the run leaves them. *)
Theorem train_last_checkpoint history trainset valset config (w : world) m c :
  result_of (train history trainset valset config w) = Ok m →
  c ∈ checkpoints (events_of (train history trainset valset config w)) →
  ck_epoch c = default 20 (num_epochs config) →
  ck_model c = m ∧
  ck_optimizer c = w_optimizer (world_of (train history trainset valset config w)) ∧
  ck_history c =
    snapshot history (w_heap (world_of (train history trainset valset config w))).
Proof.
  intros Hrun Hc He.
  apply train_ok in Hrun as (best' & Hloop & ->).
  destruct (epoch_loop_checkpoints _ _ _ _ _ _ _ _ _ _ _ _ _ Hloop c Hc)
    as (i & f & vs & Hi & _ & _ & Hlast).
  apply Hlast; [apply NoDup_seqZ|].
  unfold epochs_of in *. apply lookup_seqZ in Hi as [Hi Hlt].
  rewrite last_lookup, length_seqZ.
  apply lookup_seqZ. split; lia.
Qed.

(** X9.  In a run of [train] that returns, the history that a checkpoint
    holds has the validation F1 of the checkpoint's own epoch as last
    value of its list [val_f1]: the history is updated before the
    checkpoints of the epoch are saved. *)
Theorem train_checkpoint_history history trainset valset config (w : world) m c :
  result_of (train history trainset valset config w) = Ok m →
  c ∈ checkpoints (events_of (train history trainset valset config w)) →
  ∃ i f vs,
    epochs_of config !! i = Some (ck_epoch c) ∧
    validation_f1s (events_of (train history trainset valset config w)) !! i = Some f ∧
    ck_history c !! "val_f1" = Some (vs ++ [f]).
Proof.
  intros Hrun Hc.
  apply train_ok in Hrun as (best' & Hloop & _).
  destruct (epoch_loop_checkpoints _ _ _ _ _ _ _ _ _ _ _ _ _ Hloop c Hc)
    as (i & f & vs & Hi & Hf & Hh & _).
  by exists i, f, vs.
Qed.

(** ** The best checkpoint over a run *)

Lemma record_epochs_nil best scores :
  record_epochs best scores = [] ↔ ∀ j s, scores !! j = Some s → (s.2 ≤ best)%Qc.
Proof.
  induction scores as [|[e f] scores IH]; simpl.
  - split; [|done]. by intros _ j s.
  - unfold py_gt. case_bool_decide as Hf.
    + split; [done|]. intros Hall. specialize (Hall 0%nat (e, f) eq_refl).
      by apply Qcle_not_lt in Hall.
    + rewrite IH. split.
      * intros Hall [|j] s Hs; [|by eapply Hall].
        injection Hs as <-. by apply Qcnot_lt_le.
      * intros Hall j s Hs. by apply (Hall (S j)).
Qed.

Lemma record_epochs_last scores : ∀ best i e f,
  scores !! i = Some (e, f) → (best < f)%Qc →
  (∀ j s, (j < i)%nat → scores !! j = Some s → (s.2 < f)%Qc) →
  (∀ j s, scores !! j = Some s → (s.2 ≤ f)%Qc) →
  last (record_epochs best scores) = Some e.
Proof.
  induction scores as [|[e0 f0] scores IH]; intros best i e f Hi Hbest Hlt Hle; [done|].
  destruct i as [|i]; simpl.
  - injection Hi as -> ->. unfold py_gt. rewrite bool_decide_eq_true_2 by done.
    replace (record_epochs f scores) with (@nil Z); [done|].
    symmetry. apply record_epochs_nil. intros j s Hs. by apply (Hle (S j)).
  - assert (last (record_epochs f0 scores) = Some e) as H1.
    { apply (IH f0 i e f Hi).
      - by apply (Hlt 0%nat (e0, f0)); [lia|].
      - intros j s Hj Hs. apply (Hlt (S j)); [lia|done].
      - intros j s Hs. by apply (Hle (S j)). }
    assert (last (record_epochs best scores) = Some e) as H2.
    { apply (IH best i e f Hi Hbest).
      - intros j s Hj Hs. apply (Hlt (S j)); [lia|done].
      - intros j s Hs. by apply (Hle (S j)). }
    destruct (py_gt f0 best); [|done].
    rewrite last_cons. by rewrite H1.
Qed.

(** X10.  In a run of [train] that returns, no best checkpoint is saved
    exactly when no epoch has a validation F1 above 0, the initial value
    of [best_val_f1]: a model whose validation F1 is 0 in every epoch
    leaves no best checkpoint. *)
Theorem train_no_best_checkpoint history trainset valset config (w : world) m :
  result_of (train history trainset valset config w) = Ok m →
  best_saves (checkpoint_dir_of config) (events_of (train history trainset valset config w))
    = [] ↔
  Forall (λ f, (f ≤ 0)%Qc) (validation_f1s (events_of (train history trainset valset config w))).
Proof.
  intros Hrun.
  apply train_ok in Hrun as (best' & Hloop & _).
  apply epoch_loop_ok in Hloop as (Hlen & -> & _ & _).
  rewrite record_epochs_nil, Forall_lookup. split.
  - intros Hall j f Hf.
    destruct (lookup_lt_is_Some_2 (epochs_of config) j) as [e He].
    { rewrite <- Hlen. by eapply lookup_lt_Some. }
    apply (Hall j (e, f)). by apply lookup_zip_Some.
  - intros Hall j [e f] [_ Hf]%lookup_zip_Some. by apply (Hall j).
Qed.

(** X11.  In a run of [train] that returns, the best checkpoint is saved
    for the last time at the first epoch that reaches the highest
    validation F1 of the run, when that score is above 0: later epochs
    that only equal it do not replace the checkpoint. *)
Theorem train_last_best_checkpoint history trainset valset config (w : world) m i e f :
  result_of (train history trainset valset config w) = Ok m →
  let scores := validation_f1s (events_of (train history trainset valset config w)) in
  epochs_of config !! i = Some e →
  scores !! i = Some f →
  (0 < f)%Qc →
  (∀ j g, scores !! j = Some g → (g ≤ f)%Qc) →
  (∀ j g, (j < i)%nat → scores !! j = Some g → (g < f)%Qc) →
  last (best_saves (checkpoint_dir_of config)
          (events_of (train history trainset valset config w))) = Some e.
Proof.
  intros Hrun scores He Hf Hpos Hmax Hfirst.
  apply train_ok in Hrun as (best' & Hloop & _).
  apply epoch_loop_ok in Hloop as (Hlen & -> & _ & _).
  apply (record_epochs_last _ 0%Qc i e f); [by apply lookup_zip_Some|done| |].
  - intros j [e' g] Hj [_ Hg]%lookup_zip_Some. by apply (Hfirst j).
  - intros j [e' g] [_ Hg]%lookup_zip_Some. by apply (Hmax j).
Qed.

(** ** The history over a run *)

Lemma appended_only_val_f1 (history : gmap string nat) rt rv l :
  history !! "val_f1" = Some l →
  (∀ k, k ∈ history_keys → history !! k = Some l → k = "val_f1") →
  appended_to history "train_" (items rt) l = [] ∧
  appended_to history "val_" (items rv) l = [f1 rv].
Proof.
  intros Hl Honly. unfold appended_to, items. rewrite !filter_cons, !filter_nil.
  cbn [fst snd].
  repeat (rewrite decide_False;
          [|intros Hk; apply Honly in Hk;
            [discriminate Hk|apply (bool_decide_unpack _); by vm_compute]]).
  by rewrite decide_True by done.
Qed.

Lemma epoch_loop_val_f1 history trainset valset batch_size num_workers log_every
    checkpoint_dir epochs l : ∀ best (w w' : world) best' evs,
  history !! "val_f1" = Some l →
  (∀ k, k ∈ history_keys → history !! k = Some l → k = "val_f1") →
  epoch_loop history trainset valset batch_size num_workers log_every checkpoint_dir
    epochs best w = (Ok best', w', evs) →
  w_heap w' l = w_heap w l ++ validation_f1s evs.
Proof.
  intros best w w' best' evs Hl Honly. revert best w w' best' evs.
  induction epochs as [|epoch epochs IH]; intros best w w' best' evs Hrun.
  - injection Hrun as <- <- <-. by rewrite app_nil_r.
  - rewrite epoch_loop_cons in Hrun.
    apply bind_inv in Hrun as [(x & ? & _)|(b1 & w1 & t1 & t2 & H1 & H2 & ->)]; [done|].
    apply train_epoch_checkpoints in H1 as (rt & rv & Hf & Hheap & _ & _).
    destruct (appended_only_val_f1 history rt rv l Hl Honly) as [Et Ev].
    rewrite (IH _ _ _ _ _ H2), Hheap, Et, Ev.
    unfold validation_f1s in *. rewrite omap_app, Hf. simpl. by rewrite <- app_assoc.
Qed.

(** X12.  In a run of [train] that returns, the list of the history that
    is bound to [val_f1], and to no other of the ten keys, has received
    the validation F1 scores that the run reported, one per epoch, in the
    order of the epochs, after what it held before. *)
Theorem train_val_f1_history history trainset valset config (w : world) m l :
  result_of (train history trainset valset config w) = Ok m →
  history !! "val_f1" = Some l →
  (∀ k, k ∈ history_keys → history !! k = Some l → k = "val_f1") →
  w_heap (world_of (train history trainset valset config w)) l =
  w_heap w l ++ validation_f1s (events_of (train history trainset valset config w)).
Proof.
  intros Hrun Hl Honly.
  apply train_ok in Hrun as (best' & Hloop & _).
  by eapply epoch_loop_val_f1.
Qed.

(** ** A missing key, after the passes *)

Lemma update_history_grows history prefix its : ∀ (w : world) l,
  ∃ vs, w_heap (world_of (update_history history prefix its w)) l = w_heap w l ++ vs.
Proof.
  induction its as [|[name val] its IH]; intros w l.
  - exists []. by rewrite app_nil_r.
  - rewrite update_history_cons. unfold mbind, M_bind, bind, history_append.
    destruct (history !! (prefix +:+ name)) as [l0|]; [|exists []; by rewrite app_nil_r].
    destruct (IH (World (w_model w) (w_optimizer w) (<[l0:=w_heap w l0 ++ [val]]> (w_heap w))) l)
      as (vs & Hvs).
    destruct (update_history history prefix its _) as [[r w'] t].
    unfold world_of in *. cbn [fst snd w_heap] in *. rewrite Hvs.
    destruct (decide (l0 = l)) as [->|Hne].
    + rewrite fn_lookup_insert, <- app_assoc. by eexists.
    + rewrite fn_lookup_insert_ne by done. by eexists.
Qed.

(** With [train_loss] there and another key missing, the training loss
    has been appended when the [KeyError] is raised. *)
Lemma history_updates_partial history rt rv (w : world) l :
  history !! "train_loss" = Some l →
  ∃ vs,
    w_heap (world_of ((update_history history "train_" (items rt);;
                       update_history history "val_" (items rv)) w)) l =
    w_heap w l ++ loss rt :: vs ∧
    w_model (world_of ((update_history history "train_" (items rt);;
                        update_history history "val_" (items rv)) w)) = w_model w.
Proof.
  intros Hl.
  pose proof (update_history_quiet history "train_" (items rt) w) as (_ & M1 & _).
  assert (∃ vs, w_heap (world_of (update_history history "train_" (items rt) w)) l =
                w_heap w l ++ loss rt :: vs) as (vs1 & H1).
  { unfold items. rewrite update_history_cons.
    unfold mbind, M_bind, bind, history_append.
    change ("train_" +:+ "loss") with "train_loss". rewrite Hl.
    match goal with
    | |- context [update_history history "train_" ?its ?w1] =>
        destruct (update_history_grows history "train_" its w1 l) as (vs & Hvs);
        destruct (update_history history "train_" its w1) as [[r w'] t]
    end.
    unfold world_of in *. cbn [fst snd w_heap] in *.
    rewrite Hvs, fn_lookup_insert, <- app_assoc. by eexists. }
  unfold mbind, M_bind, bind.
  destruct (update_history history "train_" (items rt) w) as [[[[]|x] w1] t1].
  - pose proof (update_history_quiet history "val_" (items rv) w1) as (_ & M2 & _).
    destruct (update_history_grows history "val_" (items rv) w1 l) as (vs2 & H2).
    destruct (update_history history "val_" (items rv) w1) as [[r2 w2] t2].
    unfold world_of in *. cbn [fst snd] in *.
    rewrite H2, H1, M2, M1, <- app_assoc. by eexists.
  - unfold world_of in *. cbn [fst snd] in *. by eexists.
Qed.

(** X14.  When the history has [train_loss] but misses another of the ten
    keys, the [KeyError] of the first epoch comes after its two passes
    and after the appends that precede the missing key: the model is the
    one the training pass has updated, and the list bound to [train_loss]
    has received the training loss of the epoch.  Nothing is undone. *)
Theorem train_missing_key_partial history trainset valset config (w : world) k l :
  first_missing history history_keys = Some k →
  history !! "train_loss" = Some l →
  len trainset ≠ 0%nat → len valset ≠ 0%nat → is_Some (w_optimizer w) →
  epochs_of config ≠ [] →
  let bs := default 20%nat (batch_size config) in
  let nw := default 4%nat (num_workers config) in
  result_of (train history trainset valset config w) = Raise (KeyError k) ∧
  w_model (world_of (train history trainset valset config w)) =
    w_model (pass_world true w (DataLoader trainset bs nw)) ∧
  ∃ x vs,
    result_of (process_batches trainset bs nw true w) = Ok x ∧
    w_heap (world_of (train history trainset valset config w)) l =
    w_heap w l ++ loss (results_of x) :: vs.
Proof.
  intros Hmiss Hl Hts Hvs Ho Hepochs bs nw. rewrite train_unfold.
  destruct (epochs_of config) as [|epoch epochs]; [done|].
  fold bs nw.
  assert (∃ w' evs x vs,
    train_epoch history trainset valset bs nw (log_every_of config)
      (checkpoint_dir_of config) epoch 0%Qc w = (Raise (KeyError k), w', evs) ∧
    w_model w' = w_model (pass_world true w (DataLoader trainset bs nw)) ∧
    result_of (process_batches trainset bs nw true w) = Ok x ∧
    w_heap w' l = w_heap w l ++ loss (results_of x) :: vs)
    as (w' & evs & x & vs & Hep & Hm & Hx & Hheap).
  { rewrite train_epoch_spec.
    rewrite (process_batches_spec trainset) by done.
    rewrite bool_decide_eq_false_2 by done. cbv zeta iota beta.
    assert (is_Some (w_optimizer (pass_world true w (DataLoader trainset bs nw)))) as Ho1.
    { unfold pass_world. destruct Ho as [o ->]. by eexists. }
    assert (w_heap (pass_world true w (DataLoader trainset bs nw)) = w_heap w) as Hh1.
    { unfold pass_world. destruct Ho as [o ->]. done. }
    set (w1 := pass_world true w _) in *.
    rewrite (process_batches_spec valset) by done.
    rewrite bool_decide_eq_false_2 by done. cbv zeta iota beta.
    change (pass_world false w1 (DataLoader valset bs nw)) with w1.
    match goal with
    | |- context [(update_history history "train_" (items ?rt);;
                   update_history history "val_" (items ?rv)) ?w2] =>
        destruct (history_updates_result history rt rv w2) as (w' & Hupd & _);
        destruct (history_updates_partial history rt rv w2 l Hl) as (vs & Hheap & Hmodel)
    end.
    rewrite Hupd in Hheap, Hmodel. rewrite Hupd, Hmiss.
    unfold world_of in Hheap, Hmodel. cbn [fst snd] in Hheap, Hmodel.
    eexists w', _, _, vs. split; [done|]. split; [done|].
    unfold result_of. cbn [fst]. split; [done|].
    cbn [results_of loss]. by rewrite Hheap, Hh1. }
  erewrite bind_raise; [|rewrite epoch_loop_cons; by erewrite bind_raise].
  unfold result_of, world_of. cbn [fst snd]. split; [done|]. split; [done|].
  by exists x, vs.
Qed.

(** ** Accuracy and the confusion matrix *)

Lemma binary_pairs_count (ys ps : list Z) :
  Forall (λ tp : Z * Z, (tp.1 = 0 ∨ tp.1 = 1) ∧ (tp.2 = 0 ∨ tp.2 = 1)) (zip ys ps) →
  (sklearn.count_pairs 0 0 ys ps + sklearn.count_pairs 0 1 ys ps +
   sklearn.count_pairs 1 0 ys ps + sklearn.count_pairs 1 1 ys ps)%nat =
    length (zip ys ps) ∧
  length (filter (λ tp : Z * Z, tp.1 = tp.2) (zip ys ps)) =
    (sklearn.count_pairs 0 0 ys ps + sklearn.count_pairs 1 1 ys ps)%nat.
Proof.
  unfold sklearn.count_pairs. generalize (zip ys ps) as zs. clear ys ps.
  induction 1 as [|[t p] zs [Ht Hp] _ [IH1 IH2]]; [done|].
  rewrite !filter_cons. simpl in Ht, Hp. cbn [fst snd].
  destruct Ht as [-> | ->], Hp as [-> | ->];
    repeat case_decide; destruct_and?; try done;
    solve [cbn [length]; lia | exfalso; auto].
Qed.

(** X15.  For a pass that returns with as many predicted as true labels,
    all of them 0 or 1, the four entries of the confusion matrix add up to
    the number of labels of the pass, and the accuracy it reports is the
    sum of the diagonal of the matrix divided by that number. *)
Theorem process_batches_accuracy_cm dataset batch_size num_workers is_training
    (w : world) x :
  result_of (process_batches dataset batch_size num_workers is_training w) = Ok x →
  let batches := DataLoader dataset batch_size num_workers in
  let actual := targets_of batches in
  let predicted := predictions_of (pass_models is_training w batches) batches in
  length predicted = length actual →
  Forall (λ y, y = 0 ∨ y = 1) actual →
  Forall (λ y, y = 0 ∨ y = 1) predicted →
  ∃ tn fp fn tp,
    cm_of x = [[tn; fp]; [fn; tp]] ∧
    (tn + fp + fn + tp = length actual)%nat ∧
    accuracy (results_of x) = ratio (tn + tp) (length actual).
Proof.
  intros Hx batches actual predicted Hlen Ha Hp.
  destruct (process_batches_ok _ _ _ _ _ _ Hx) as (_ & -> & ->).
  fold batches actual predicted. rewrite confusion_matrix_01.
  destruct (binary_pairs_count actual predicted) as [Htotal Hdiag].
  { apply Forall_forall. intros [t p] Htp. cbn [fst snd].
    rewrite Forall_forall in Ha, Hp. split.
    - apply Ha. by eapply elem_of_zip_l.
    - apply Hp. by eapply elem_of_zip_r. }
  eexists _, _, _, _. split; [done|].
  rewrite Htotal, length_zip, Hlen, Nat.min_id.
  split; [done|]. cbn [accuracy]. unfold sklearn.accuracy_score. by rewrite Hdiag.
Qed.

End TrainProperties.

(** * The two sentences go through the same layers *)

Section BlockSymmetry.
Context {Tensor Gen : Type}.
Variable attn : Tensor → Tensor → option (Tensor * Tensor).
Variable conv : Tensor → option Tensor.
Variable pool : Tensor → option Tensor.
Variable ap : Tensor → option Tensor.

(** X16.  [forward] applies the same convolution, the same width pooling
    and the same all-ap to both sentences.  So when the attention layer
    gives for [(x2, x1)] the pair it gives for [(x1, x2)], swapped,
    exchanging the inputs exchanges the sentence vectors [a1] and [a2],
    whatever dropout draws; with a dropout that passes its input through,
    as in evaluation mode, it exchanges [w1] and [w2] as well. *)
Theorem forward_swap (dropout : Gen → Tensor → Tensor * Gen) g g' x1 x2 :
  attn x2 x1 = prod_swap <$> attn x1 x2 →
  ABCNN1.sentence_vectors (ABCNN1.forward attn conv pool ap dropout g x2 x1) =
    prod_swap <$> ABCNN1.sentence_vectors (ABCNN1.forward attn conv pool ap dropout g' x1 x2) ∧
  ((∀ g t, dropout g t = (t, g)) →
   ABCNN1.pooled_sequences (ABCNN1.forward attn conv pool ap dropout g x2 x1) =
     prod_swap <$>
       ABCNN1.pooled_sequences (ABCNN1.forward attn conv pool ap dropout g' x1 x2)).
Proof.
  intros Hswap. unfold ABCNN1.sentence_vectors, ABCNN1.pooled_sequences, ABCNN1.forward.
  rewrite Hswap.
  destruct (attn x1 x2) as [[o1 o2]|]; simpl; [|done].
  destruct (conv o1) as [c1|], (conv o2) as [c2|]; simpl; try done.
  destruct (pool c1) as [p1|], (pool c2) as [p2|]; simpl; try done.
  split.
  - destruct (dropout g p2) as [d2 g2], (dropout g2 p1) as [d1 g1].
    destruct (dropout g' p1) as [d1' g1'], (dropout g1' p2) as [d2' g2'].
    by destruct (ap c1) as [v1|], (ap c2) as [v2|].
  - intros Hid. rewrite !Hid.
    by destruct (ap c1) as [v1|], (ap c2) as [v2|].
Qed.

End BlockSymmetry.

(** * The properties at work on the small instance *)

Lemma process_batches_empty_dataset_witness :
  TrainToy.process_batches [] 8 4 true TrainToy.w0 = (Raise ValueError, TrainToy.w0, []) ∧
  (∀ x, result_of (TrainToy.process_batches [] 8 4 true TrainToy.w0) ≠ Ok x) ∧
  result_of (TrainToy.process_batches [] 8 4 true TrainToy.w0) ≠ Raise ZeroDivisionError.
Proof.
  apply (process_batches_empty_dataset TrainToy.apply_model TrainToy.argmax TrainToy.loss_fn
           TrainToy.torch_sum TrainToy.float_of TrainToy.zero_grad TrainToy.backward
           TrainToy.step TrainToy.len TrainToy.shuffled [] 8%nat 4%nat true TrainToy.w0).
  reflexivity.
Defined.

(** The pass over the empty dataset does not end with the division by
    zero of line 242. *)
Lemma process_batches_empty_dataset_counterexample :
  TrainToy.len [] = 0%nat ∧
  result_of (TrainToy.process_batches [] 8 4 true TrainToy.w0) ≠ Raise ZeroDivisionError ∧
  result_of (TrainToy.process_batches [] 8 4 false TrainToy.w0) ≠ Raise ZeroDivisionError.
Proof. split; [reflexivity|]. split; vm_compute; discriminate. Qed.

Lemma process_batches_loss_witness :
  ∃ x, result_of (TrainToy.process_batches TrainToy.hundred 50 4 false TrainToy.w0) = Ok x ∧
    loss (results_of x) = Q2Qc 2.5.
Proof.
  destruct (process_batches_loss TrainToy.apply_model TrainToy.argmax TrainToy.loss_fn
              TrainToy.torch_sum TrainToy.float_of TrainToy.zero_grad TrainToy.backward
              TrainToy.step TrainToy.len TrainToy.shuffled TrainToy.hundred 50%nat 4%nat
              false TrainToy.w0) as (x & Hx & _ & Hloss).
  - by vm_compute.
  - done.
  - exists x. split; [exact Hx|]. apply Hloss; [reflexivity|].
    apply Qc_is_canon. by vm_compute.
Defined.

Lemma process_batches_metrics_witness :
  ∃ x, result_of (TrainToy.process_batches TrainToy.valset 8 4 false TrainToy.w0) = Ok x ∧
    f1 (results_of x) =
      sklearn.f1_score (TrainToy.valset.*2) (TrainToy.predict 0 <$> TrainToy.valset.*1).
Proof.
  eexists. split; [reflexivity|].
  eapply (process_batches_metrics TrainToy.apply_model TrainToy.argmax TrainToy.loss_fn
            TrainToy.torch_sum TrainToy.float_of TrainToy.zero_grad TrainToy.backward
            TrainToy.step TrainToy.len TrainToy.shuffled TrainToy.valset 8%nat 4%nat
            false TrainToy.w0).
  reflexivity.
Defined.

Lemma process_batches_confusion_matrix_witness :
  ∃ x, result_of (TrainToy.process_batches TrainToy.zeros 2 4 false TrainToy.w0) = Ok x ∧
    cm_of x = [[3; 0]; [0; 0]]%nat.
Proof.
  eexists. split; [reflexivity|].
  destruct (process_batches_confusion_matrix TrainToy.apply_model TrainToy.argmax
              TrainToy.loss_fn TrainToy.torch_sum TrainToy.float_of TrainToy.zero_grad
              TrainToy.backward TrainToy.step TrainToy.len TrainToy.shuffled
              TrainToy.zeros 2%nat 4%nat false TrainToy.w0 _ eq_refl)
    as (_ & _ & Hcm & _ & _).
  exact Hcm.
Defined.

Lemma train_best_checkpoint_witness :
  validation_f1s (events_of (TrainToy.train TrainToy.history TrainToy.trainset
                               TrainToy.valset TrainToy.config4 TrainToy.w0)) =
    [Q2Qc 0.3; Q2Qc 0.5; Q2Qc 0.4; Q2Qc 0.6] ∧
  best_saves "checkpoints"
    (events_of (TrainToy.train TrainToy.history TrainToy.trainset TrainToy.valset
                  TrainToy.config4 TrainToy.w0)) = [1; 2; 4].
Proof.
  assert (validation_f1s (events_of (TrainToy.train TrainToy.history TrainToy.trainset
                                       TrainToy.valset TrainToy.config4 TrainToy.w0)) =
          [Q2Qc 0.3; Q2Qc 0.5; Q2Qc 0.4; Q2Qc 0.6]) as Hscores.
  { vm_compute.
    repeat (apply (f_equal2 (@cons Qc)); [apply Qc_is_canon; vm_compute; reflexivity|]).
    reflexivity. }
  split; [exact Hscores|].
  destruct (train_best_checkpoint TrainToy.apply_model TrainToy.argmax TrainToy.loss_fn
              TrainToy.torch_sum TrainToy.float_of TrainToy.zero_grad TrainToy.backward
              TrainToy.step TrainToy.len TrainToy.shuffled TrainToy.history
              TrainToy.trainset TrainToy.valset TrainToy.config4 TrainToy.w0 4%nat eq_refl)
    as (_ & _ & _ & Hex).
  by apply Hex.
Defined.


(** The history of the small instance binds the ten keys to ten different
    list objects. *)
Lemma toy_history_inj k1 k2 (l : nat) :
  k1 ∈ history_keys → k2 ∈ history_keys →
  TrainToy.history !! k1 = Some l → TrainToy.history !! k2 = Some l → k1 = k2.
Proof.
  intros Hk1 Hk2.
  assert (∀ k, k ∈ history_keys →
            TrainToy.history !! k =
            list_find (λ k', k' = k) history_keys ≫= λ ik, Some ik.1) as Hfind.
  { intros k Hk. unfold history_keys in Hk. simpl in Hk.
    repeat (apply elem_of_cons in Hk as [->|Hk]; [by vm_compute|]).
    by apply elem_of_nil in Hk. }
  rewrite (Hfind k1 Hk1), (Hfind k2 Hk2).
  destruct (list_find (λ k', k' = k1) history_keys) as [[i1 x1]|] eqn:E1; [|done].
  destruct (list_find (λ k', k' = k2) history_keys) as [[i2 x2]|] eqn:E2; [|done].
  simpl. intros [= <-] [= ->].
  apply list_find_Some in E1 as (H1 & -> & _), E2 as (H2 & -> & _). congruence.
Qed.

Lemma train_history_witness :
  ∃ vs, w_heap (world_of (TrainToy.train TrainToy.history TrainToy.trainset TrainToy.valset
                            TrainToy.config4 TrainToy.w0)) 9%nat = [] ++ vs ∧
    length vs = 4%nat.
Proof.
  destruct (proj1 (proj2 (train_history TrainToy.apply_model TrainToy.argmax
              TrainToy.loss_fn TrainToy.torch_sum TrainToy.float_of TrainToy.zero_grad
              TrainToy.backward TrainToy.step TrainToy.len TrainToy.shuffled
              TrainToy.history TrainToy.trainset TrainToy.valset TrainToy.config4
              TrainToy.w0)) 4%nat eq_refl 9%nat) as (vs & Hvs & _ & Honce).
  exists vs. split; [exact Hvs|].
  apply (Honce "val_f1").
  - apply (bool_decide_unpack _). by vm_compute.
  - reflexivity.
  - intros k' Hk' Hl'. apply (toy_history_inj k' "val_f1" 9%nat); [done| |done|reflexivity].
    apply (bool_decide_unpack _). by vm_compute.
Defined.

Lemma process_batches_modes_witness :
  world_of (TrainToy.process_batches TrainToy.valset 8 4 false TrainToy.w0) = TrainToy.w0 ∧
  events_of (TrainToy.process_batches TrainToy.valset 8 4 false TrainToy.w0) = [].
Proof.
  destruct (process_batches_modes TrainToy.apply_model TrainToy.argmax TrainToy.loss_fn
              TrainToy.torch_sum TrainToy.float_of TrainToy.zero_grad TrainToy.backward
              TrainToy.step TrainToy.len TrainToy.shuffled TrainToy.valset 8%nat 4%nat
              TrainToy.w0) as ((Hw & Hev & _) & _).
  by split.
Defined.

(** A training pass over the two training examples, in one batch, makes
    the three calls once and leaves the model one step further. *)
Example toy_training_pass :
  (λ e, match e with EvZeroGrad => 0 | EvBackward _ => 1 | EvStep => 2 | _ => 3 end) <$>
    events_of (TrainToy.process_batches TrainToy.trainset 8 4 true TrainToy.w0) = [0; 1; 2] ∧
  w_model (world_of (TrainToy.process_batches TrainToy.trainset 8 4 true TrainToy.w0)) = 1%nat.
Proof. by vm_compute. Qed.

(** With an empty history the first epoch ends at the first append. *)
Example toy_missing_key :
  result_of (TrainToy.train ∅ TrainToy.trainset TrainToy.valset TrainToy.config4 TrainToy.w0)
    = Raise (KeyError "train_loss").
Proof. by vm_compute. Qed.

(** When the ten keys are bound to one and the same list object, each of
    the four epochs appends its ten values to that one list. *)
Example toy_shared_list :
  length (w_heap (world_of (TrainToy.train (list_to_map ((λ k, (k, 0%nat)) <$> history_keys))
                              TrainToy.trainset TrainToy.valset TrainToy.config4
                              TrainToy.w0)) 0%nat) = 40%nat.
Proof. by vm_compute. Qed.

(** The numeric examples on binary64: 250.0 / 100 is 2.5, and the scores
    0.3, 0.5, 0.4, 0.6 (written as the binary64 values Python reads them
    as) set a new best at epochs 1, 2 and 4. *)
Example binary64_loss : Binary64.truediv 250 100 = 2.5%float.
Proof. reflexivity. Qed.

Example binary64_best_epochs :
  Binary64.best_epochs 0 1
    [0x1.3333333333333p-2; 0.5; 0x1.999999999999ap-2; 0x1.3333333333333p-1]%float
  = [1; 2; 4].
Proof. reflexivity. Qed.

(** ** The further properties on the small instance *)

Lemma evaluate_returns_witness :
  ∃ r cm,
    TrainToy.evaluate TrainToy.valset None None TrainToy.w0 =
      (Ok (r, cm), TrainToy.w0,
       [EvPrintReport cm (accuracy r) (precision r) (recall r) (f1 r)]) ∧
    result_of (TrainToy.process_batches TrainToy.valset 64 4 false TrainToy.w0) =
      Ok (Ret2 r cm).
Proof.
  apply (evaluate_returns TrainToy.apply_model TrainToy.argmax TrainToy.loss_fn
           TrainToy.torch_sum TrainToy.float_of TrainToy.zero_grad TrainToy.backward
           TrainToy.step TrainToy.len TrainToy.shuffled TrainToy.valset None None
           TrainToy.w0).
  by vm_compute.
Defined.

Lemma evaluate_empty_dataset_witness :
  TrainToy.evaluate [] None None TrainToy.w0 = (Raise ValueError, TrainToy.w0, []).
Proof.
  apply (evaluate_empty_dataset TrainToy.apply_model TrainToy.argmax TrainToy.loss_fn
           TrainToy.torch_sum TrainToy.float_of TrainToy.zero_grad TrainToy.backward
           TrainToy.step TrainToy.len TrainToy.shuffled [] None None TrainToy.w0).
  reflexivity.
Defined.

Lemma process_batches_missing_optimizer_witness :
  TrainToy.process_batches TrainToy.trainset 8 4 true TrainToy.w_eval =
    (Raise AttributeError, TrainToy.w_eval, []).
Proof.
  refine (proj1 (process_batches_missing_optimizer TrainToy.apply_model TrainToy.argmax
                   TrainToy.loss_fn TrainToy.torch_sum TrainToy.float_of TrainToy.zero_grad
                   TrainToy.backward TrainToy.step TrainToy.len TrainToy.shuffled
                   TrainToy.trainset 8%nat 4%nat TrainToy.w_eval _ _)).
  - reflexivity.
  - by vm_compute.
Defined.

Lemma train_no_epoch_witness :
  TrainToy.train TrainToy.history TrainToy.trainset TrainToy.valset TrainToy.config_none
    TrainToy.w0 = (Ok 0%nat, TrainToy.w0, []).
Proof.
  apply (train_no_epoch TrainToy.apply_model TrainToy.argmax TrainToy.loss_fn
           TrainToy.torch_sum TrainToy.float_of TrainToy.zero_grad TrainToy.backward
           TrainToy.step TrainToy.len TrainToy.shuffled TrainToy.history
           TrainToy.trainset TrainToy.valset TrainToy.config_none TrainToy.w0).
  by vm_compute.
Defined.

Lemma train_empty_dataset_witness :
  result_of (TrainToy.train TrainToy.history TrainToy.trainset [] TrainToy.config4
               TrainToy.w0) = Raise ValueError ∧
  w_model (world_of (TrainToy.train TrainToy.history TrainToy.trainset [] TrainToy.config4
                       TrainToy.w0)) = 1%nat.
Proof.
  destruct (train_empty_dataset TrainToy.apply_model TrainToy.argmax TrainToy.loss_fn
              TrainToy.torch_sum TrainToy.float_of TrainToy.zero_grad TrainToy.backward
              TrainToy.step TrainToy.len TrainToy.shuffled TrainToy.history
              TrainToy.trainset [] TrainToy.config4 TrainToy.w0)
    as (Hres & _ & _ & _ & _ & Hmodel).
  - by vm_compute.
  - by eexists.
  - by right.
  - split; [exact Hres|]. apply Hmodel. by vm_compute.
Defined.

Lemma train_missing_optimizer_witness :
  TrainToy.train TrainToy.history TrainToy.trainset TrainToy.valset TrainToy.config4
    TrainToy.w_eval = (Raise AttributeError, TrainToy.w_eval, []).
Proof.
  apply (train_missing_optimizer TrainToy.apply_model TrainToy.argmax TrainToy.loss_fn
           TrainToy.torch_sum TrainToy.float_of TrainToy.zero_grad TrainToy.backward
           TrainToy.step TrainToy.len TrainToy.shuffled TrainToy.history
           TrainToy.trainset TrainToy.valset TrainToy.config4 TrainToy.w_eval).
  - by vm_compute.
  - reflexivity.
  - by vm_compute.
Defined.

Lemma train_checkpoints_same_epoch_witness :
  ∃ c c',
    checkpoints (events_of (TrainToy.train TrainToy.history TrainToy.trainset
                              TrainToy.valset TrainToy.config_log2 TrainToy.w0)) !! 1%nat
      = Some c ∧
    checkpoints (events_of (TrainToy.train TrainToy.history TrainToy.trainset
                              TrainToy.valset TrainToy.config_log2 TrainToy.w0)) !! 2%nat
      = Some c' ∧
    ck_model c = ck_model c' ∧ ck_optimizer c = ck_optimizer c' ∧
    ck_history c = ck_history c'.
Proof.
  eexists _, _. split; [vm_compute; reflexivity|]. split; [vm_compute; reflexivity|].
  apply (train_checkpoints_same_epoch TrainToy.apply_model TrainToy.argmax TrainToy.loss_fn
           TrainToy.torch_sum TrainToy.float_of TrainToy.zero_grad TrainToy.backward
           TrainToy.step TrainToy.len TrainToy.shuffled TrainToy.history
           TrainToy.trainset TrainToy.valset TrainToy.config_log2 TrainToy.w0 4%nat).
  - reflexivity.
  - apply (list_elem_of_lookup_2 _ 1%nat). vm_compute. reflexivity.
  - apply (list_elem_of_lookup_2 _ 2%nat). vm_compute. reflexivity.
  - reflexivity.
Defined.

Lemma train_last_checkpoint_witness :
  ∃ c,
    checkpoints (events_of (TrainToy.train TrainToy.history TrainToy.trainset
                              TrainToy.valset TrainToy.config_log2 TrainToy.w0)) !! 3%nat
      = Some c ∧
    ck_model c = 4%nat.
Proof.
  eexists. split; [vm_compute; reflexivity|].
  refine (proj1 (train_last_checkpoint TrainToy.apply_model TrainToy.argmax
                   TrainToy.loss_fn TrainToy.torch_sum TrainToy.float_of TrainToy.zero_grad
                   TrainToy.backward TrainToy.step TrainToy.len TrainToy.shuffled
                   TrainToy.history TrainToy.trainset TrainToy.valset TrainToy.config_log2
                   TrainToy.w0 4%nat _ _ _ _)).
  - reflexivity.
  - apply (list_elem_of_lookup_2 _ 3%nat). vm_compute. reflexivity.
  - reflexivity.
Defined.

Lemma train_checkpoint_history_witness :
  ∃ c,
    checkpoints (events_of (TrainToy.train TrainToy.history TrainToy.trainset
                              TrainToy.valset TrainToy.config_log2 TrainToy.w0)) !! 0%nat
      = Some c ∧
    ∃ i f vs,
      epochs_of TrainToy.config_log2 !! i = Some (ck_epoch c) ∧
      validation_f1s (events_of (TrainToy.train TrainToy.history TrainToy.trainset
                                   TrainToy.valset TrainToy.config_log2 TrainToy.w0)) !! i
        = Some f ∧
      ck_history c !! "val_f1" = Some (vs ++ [f]).
Proof.
  eexists. split; [vm_compute; reflexivity|].
  apply (train_checkpoint_history TrainToy.apply_model TrainToy.argmax TrainToy.loss_fn
           TrainToy.torch_sum TrainToy.float_of TrainToy.zero_grad TrainToy.backward
           TrainToy.step TrainToy.len TrainToy.shuffled TrainToy.history
           TrainToy.trainset TrainToy.valset TrainToy.config_log2 TrainToy.w0 4%nat).
  - reflexivity.
  - apply (list_elem_of_lookup_2 _ 0%nat). vm_compute. reflexivity.
Defined.

Lemma train_no_best_checkpoint_witness :
  best_saves "checkpoints"
    (events_of (TrainToy.train TrainToy.history TrainToy.trainset TrainToy.valset
                  TrainToy.config4 TrainToy.w0)) = [] ↔
  Forall (λ f, (f ≤ 0)%Qc)
    (validation_f1s (events_of (TrainToy.train TrainToy.history TrainToy.trainset
                                  TrainToy.valset TrainToy.config4 TrainToy.w0))).
Proof.
  apply (train_no_best_checkpoint TrainToy.apply_model TrainToy.argmax TrainToy.loss_fn
           TrainToy.torch_sum TrainToy.float_of TrainToy.zero_grad TrainToy.backward
           TrainToy.step TrainToy.len TrainToy.shuffled TrainToy.history
           TrainToy.trainset TrainToy.valset TrainToy.config4 TrainToy.w0 4%nat).
  reflexivity.
Defined.

Lemma train_last_best_checkpoint_witness :
  last (best_saves "checkpoints"
          (events_of (TrainToy.train TrainToy.history TrainToy.trainset TrainToy.valset
                        TrainToy.config4 TrainToy.w0))) = Some 4.
Proof.
  assert (validation_f1s (events_of (TrainToy.train TrainToy.history TrainToy.trainset
                                       TrainToy.valset TrainToy.config4 TrainToy.w0)) =
          [Q2Qc 0.3; Q2Qc 0.5; Q2Qc 0.4; Q2Qc 0.6]) as Hscores.
  { vm_compute.
    repeat (apply (f_equal2 (@cons Qc)); [apply Qc_is_canon; vm_compute; reflexivity|]).
    reflexivity. }
  unfold TrainToy.train in Hscores.
  apply (train_last_best_checkpoint TrainToy.apply_model TrainToy.argmax TrainToy.loss_fn
           TrainToy.torch_sum TrainToy.float_of TrainToy.zero_grad TrainToy.backward
           TrainToy.step TrainToy.len TrainToy.shuffled TrainToy.history
           TrainToy.trainset TrainToy.valset TrainToy.config4 TrainToy.w0 4%nat 3%nat
           4 (Q2Qc 0.6)).
  - reflexivity.
  - reflexivity.
  - by rewrite Hscores.
  - by vm_compute.
  - rewrite Hscores. clear Hscores. intros [|[|[|[|j]]]] g [= <-]; by vm_compute.
  - rewrite Hscores. clear Hscores.
    intros [|[|[|j]]] g Hj; [intros [= <-]; by vm_compute..|exfalso; clear -Hj; lia].
Defined.

Lemma train_val_f1_history_witness :
  w_heap (world_of (TrainToy.train TrainToy.history TrainToy.trainset TrainToy.valset
                      TrainToy.config4 TrainToy.w0)) 9%nat =
  [] ++ validation_f1s (events_of (TrainToy.train TrainToy.history TrainToy.trainset
                                     TrainToy.valset TrainToy.config4 TrainToy.w0)).
Proof.
  apply (train_val_f1_history TrainToy.apply_model TrainToy.argmax TrainToy.loss_fn
           TrainToy.torch_sum TrainToy.float_of TrainToy.zero_grad TrainToy.backward
           TrainToy.step TrainToy.len TrainToy.shuffled TrainToy.history
           TrainToy.trainset TrainToy.valset TrainToy.config4 TrainToy.w0 4%nat 9%nat).
  - reflexivity.
  - reflexivity.
  - intros k Hk Hl. apply (toy_history_inj k "val_f1" 9%nat); [done| |done|reflexivity].
    apply (bool_decide_unpack _). by vm_compute.
Defined.

Lemma train_missing_key_partial_witness :
  result_of (TrainToy.train TrainToy.history_loss TrainToy.trainset TrainToy.valset
               TrainToy.config4 TrainToy.w0) = Raise (KeyError "train_accuracy") ∧
  w_model (world_of (TrainToy.train TrainToy.history_loss TrainToy.trainset
                       TrainToy.valset TrainToy.config4 TrainToy.w0)) = 1%nat.
Proof.
  destruct (train_missing_key_partial TrainToy.apply_model TrainToy.argmax TrainToy.loss_fn
              TrainToy.torch_sum TrainToy.float_of TrainToy.zero_grad TrainToy.backward
              TrainToy.step TrainToy.len TrainToy.shuffled TrainToy.history_loss
              TrainToy.trainset TrainToy.valset TrainToy.config4 TrainToy.w0
              "train_accuracy" 0%nat) as (Hres & Hmodel & _).
  - reflexivity.
  - reflexivity.
  - by vm_compute.
  - by vm_compute.
  - by eexists.
  - by vm_compute.
  - split; [exact Hres|exact Hmodel].
Defined.

Lemma process_batches_accuracy_cm_witness :
  ∃ x, result_of (TrainToy.process_batches TrainToy.valset 8 4 false TrainToy.w0) = Ok x ∧
    ∃ tn fp fn tp,
      cm_of x = [[tn; fp]; [fn; tp]] ∧
      (tn + fp + fn + tp = 20)%nat ∧
      accuracy (results_of x) = ratio (tn + tp) 20.
Proof.
  eexists. split; [reflexivity|].
  apply (process_batches_accuracy_cm TrainToy.apply_model TrainToy.argmax TrainToy.loss_fn
           TrainToy.torch_sum TrainToy.float_of TrainToy.zero_grad TrainToy.backward
           TrainToy.step TrainToy.len TrainToy.shuffled TrainToy.valset 8%nat 4%nat
           false TrainToy.w0 _ eq_refl).
  - reflexivity.
  - apply (bool_decide_unpack _). by vm_compute.
  - apply (bool_decide_unpack _). by vm_compute.
Defined.

Lemma forward_swap_witness :
  ABCNN1.sentence_vectors (ABCNN1.Toy.forward [] ABCNN1.Toy.x2 ABCNN1.Toy.x1) =
  prod_swap <$> ABCNN1.sentence_vectors (ABCNN1.Toy.forward [] ABCNN1.Toy.x1 ABCNN1.Toy.x2).
Proof.
  refine (proj1 (forward_swap ABCNN1.Toy.attn ABCNN1.Toy.conv ABCNN1.Toy.pool
                   ABCNN1.Toy.ap ABCNN1.Toy.dropout [] [] ABCNN1.Toy.x1 ABCNN1.Toy.x2 _)).
  vm_compute. reflexivity.
Defined.
